(** * AINative Python SDK: a shallow embedding and its verified properties

    The development follows the layout of the SDK.

    Definitions:
    - [Json], the values that travel in request bodies, query parameters
      and response envelopes, with Python's truthiness protocol;
    - [AgentSwarm], the embedding of [ainative/agent_swarm/__init__.py];
    - [Crypto], the signing primitives of Python's standard library;
    - [Exceptions], [Auth] and [Client], the request layer the resource
      modules sit on ([ainative/exceptions.py], [ainative/auth.py] and
      [ainative/client.py]);
    - [Fixtures], the fixtures of the test suite;
    - [Routes], names for statements about the Agent Swarm endpoints;
    - [Conftest], the environment fixture of [tests/conftest.py];
    - [RunTests], the embedding of [run_tests.py];
    - [Scenarios], stand-ins for subprocesses and failing calls.

    Theorems: the properties of the Agent Swarm resource methods, of the
    request layer and of the authentication headers, then each of them
    at the fixtures; after them the routes and payloads of the Agent
    Swarm methods, the environment fixture and the test runner.

    Python dictionaries with string keys are [gmap string _]: equality of
    maps is equality of dictionaries.  Stateful code is written in a
    small state-and-exception monad; the retry loop threads the log of
    what the client did to the outside. *)

From Stdlib Require Import Ascii ZArith QArith Lqa DecimalString.
From Stdlib Require DecimalPos DecimalZ.
From stdpp Require Import gmap strings list.

Set Warnings "-register-all".
Set Default Proof Using "Type".

#[local] Open Scope string_scope.
#[local] Open Scope Z_scope.

(* ===================================================================== *)
(** ** JSON values and truthiness *)
(* ===================================================================== *)

Module Json.

(** The payload values of the SDK: what [Dict[str, Any]] and
    [List[Dict[str, Any]]] range over once they are sent as JSON.  A
    finite float is the rational it denotes. *)
Inductive json : Type :=
  | JNull
  | JBool (b : bool)
  | JInt (z : Z)
  | JFloat (x : Q)
  | JStr (s : string)
  | JList (l : list json)
  | JDict (d : gmap string json).

(** A Python [dict] with string keys. *)
Abbreviation dict := (gmap string json).

(** Python's truth-value protocol ([bool(x)], as used by [if x:] and
    [x or y]). *)
Class Truthy (A : Type) := truthy : A → bool.
#[global] Hint Mode Truthy ! : typeclass_instances.

#[global] Instance truthy_bool : Truthy bool := λ b, b.
#[global] Instance truthy_Z : Truthy Z := λ z, negb (z =? 0).
#[global] Instance truthy_Q : Truthy Q := λ x, negb (Qeq_bool x 0).
#[global] Instance truthy_string : Truthy string :=
  λ s, match s with EmptyString => false | String _ _ => true end.
#[global] Instance truthy_list {A} : Truthy (list A) :=
  λ l, match l with [] => false | _ :: _ => true end.
#[global] Instance truthy_gmap {A} : Truthy (gmap string A) :=
  λ m, negb (Nat.eqb (size m) 0).
(** [None] is falsy; any other value answers for itself. *)
#[global] Instance truthy_option {A} `{Truthy A} : Truthy (option A) :=
  λ o, match o with None => false | Some a => truthy a end.
#[global] Instance truthy_json : Truthy json :=
  λ j, match j with
       | JNull => false
       | JBool b => truthy b
       | JInt z => truthy z
       | JFloat x => truthy x
       | JStr s => truthy s
       | JList l => truthy l
       | JDict d => truthy d
       end.

(** [x or y] for an [Optional[T]] left operand and a [T] right operand:
    the left operand when it is truthy, else the right one. *)
Definition py_or {A} `{Truthy A} (x : option A) (y : A) : A :=
  match x with
  | Some a => if truthy a then a else y
  | None => y
  end.

(** [d.get(key, default)]. *)
Definition dict_get (d : dict) (key : string) (dflt : json) : json :=
  match d !! key with
  | Some v => v
  | None => dflt
  end.

(** A list of strings as a JSON array. *)
Definition jstrs (l : list string) : json := JList (JStr <$> l).

End Json.
Export Json.

(* ===================================================================== *)
(** ** Outcomes of calls that may raise *)
(* ===================================================================== *)

(** A Python call either returns a value or raises. *)
Inductive Outcome (E A : Type) : Type :=
  | Returned (a : A)
  | Raised (e : E).
Arguments Returned {E A} a.
Arguments Raised {E A} e.

(** An object reference (the identity of a heap object). *)
Definition loc := nat.

(* ===================================================================== *)
(** ** ainative/agent_swarm/__init__.py *)
(* ===================================================================== *)

Module AgentSwarm.

(** [class AgentType(Enum)] *)
Inductive AgentType : Type :=
  | RESEARCHER | CODER | REVIEWER | TESTER
  | DOCUMENTER | ANALYST | DESIGNER | ORCHESTRATOR.

(** [AgentType.X.value] *)
Definition AgentType_value (t : AgentType) : string :=
  match t with
  | RESEARCHER => "researcher"
  | CODER => "coder"
  | REVIEWER => "reviewer"
  | TESTER => "tester"
  | DOCUMENTER => "documenter"
  | ANALYST => "analyst"
  | DESIGNER => "designer"
  | ORCHESTRATOR => "orchestrator"
  end.

(** [class SwarmStatus(Enum)] *)
Inductive SwarmStatus : Type :=
  | IDLE | STARTING | RUNNING | PAUSED | STOPPING | COMPLETED | FAILED.

Definition SwarmStatus_value (s : SwarmStatus) : string :=
  match s with
  | IDLE => "idle"
  | STARTING => "starting"
  | RUNNING => "running"
  | PAUSED => "paused"
  | STOPPING => "stopping"
  | COMPLETED => "completed"
  | FAILED => "failed"
  end.

(** The three convenience methods of the parent client the module uses. *)
Inductive Verb : Type := GET | POST | PUT.

(** One call [self.client.<verb>(endpoint, data=..., params=...)].
    A keyword that is not passed is [None]. *)
Record ClientCall : Type := mkCall {
  verb : Verb;
  endpoint : string;
  data : option dict;
  params : option dict;
}.

(** [class AgentSwarmClient]: the fields [__init__] sets. [client] is a
    reference to the parent [AINativeClient]. *)
Record AgentSwarmClient : Type := mkSwarm {
  client : loc;
  base_path : string;
}.

(** [AgentSwarmClient.__init__] *)
Definition AgentSwarmClient_init (parent : loc) : AgentSwarmClient :=
  {| client := parent; base_path := "/agent-swarm" |}.

(** A call of a resource method, with its arguments. *)
Inductive MethodCall : Type :=
  | StartSwarm (project_id : string) (agents : list json)
      (objective : string) (config : option dict)
  | Orchestrate (swarm_id task : string) (context : option dict)
      (agents : option (list string))
  | GetStatus (swarm_id : string)
  | GetMetrics (swarm_id project_id : option string)
  | GetAgentTypes
  | ConfigureAgent (swarm_id agent_id : string) (config : dict)
  | SetAgentPrompt (swarm_id agent_id prompt : string)
      (system_prompt : option string)
  | StopSwarm (swarm_id : string) (force : bool)
  | PauseSwarm (swarm_id : string)
  | ResumeSwarm (swarm_id : string)
  | GetSwarmHistory (swarm_id : string) (limit : Z)
  | GetAgentCommunications (swarm_id : string) (agent_id : option string)
  | CreateAgent (name : string) (agent_type : AgentType)
      (capabilities : list string) (prompt : string) (config : option dict).

Section Methods.

(** The world outside the module (the parent client's own state and
    the network behind it) and what the parent may raise. *)
Context {World Exn : Type}.

(** The parent client's [get]/[post]/[put]: given the client object
    that receives the call, the call and the world, the response
    envelope it returns (or the exception it raises) and the world
    after the call. *)
Variable client_call : loc → ClientCall → World → Outcome Exn dict * World.

(** The state a method runs in: the receiver [self], the outside
    world, and the calls that reached a parent client so far. *)
Record Heap : Type := mkHeap {
  this : AgentSwarmClient;
  world : World;
  dispatched : list (loc * ClientCall);
}.

Definition M (A : Type) : Type := Heap → Outcome Exn A * Heap.

Definition ret {A} (a : A) : M A := λ h, (Returned a, h).

Definition bind {A B} (m : M A) (k : A → M B) : M B :=
  λ h, match m h with
       | (Returned a, h') => k a h'
       | (Raised e, h') => (Raised e, h')
       end.

Notation "x <- m ;; k" := (bind m (λ x, k))
  (at level 100, m at next level, right associativity).

(** Reading an attribute of [self]. *)
Definition self_client : M loc := λ h, (Returned (client (this h)), h).
Definition self_base_path : M string :=
  λ h, (Returned (base_path (this h)), h).

(** Calling a convenience method of a client object. *)
Definition call (c : loc) (rq : ClientCall) : M dict :=
  λ h, let answer := client_call c rq (world h) in
       (fst answer,
        {| this := this h; world := snd answer;
           dispatched := (dispatched h ++ [(c, rq)])%list |}).

Definition client_get (path : string) (ps : option dict) : M dict :=
  c <- self_client ;; call c (mkCall GET path None ps).
Definition client_post (path : string) (d : option dict) : M dict :=
  c <- self_client ;; call c (mkCall POST path d None).
Definition client_put (path : string) (d : option dict) : M dict :=
  c <- self_client ;; call c (mkCall PUT path d None).

(** [data[key] = value] guarded by [if arg:]. *)
Definition set_if_truthy {A} `{Truthy A} (key : string) (arg : option A)
    (to_json : A → json) (d : dict) : dict :=
  match arg with
  | Some a => if truthy a then <[key := to_json a]> d else d
  | None => d
  end.

Definition start_swarm (project_id : string) (agents : list json)
    (objective : string) (config : option dict) : M dict :=
  let data : dict :=
    {[ "project_id" := JStr project_id;
       "agents" := JList agents;
       "objective" := JStr objective;
       "config" := JDict (py_or config ∅) ]} in
  bp <- self_base_path ;;
  client_post (bp ++ "/start") (Some data).

Definition orchestrate (swarm_id task : string) (context : option dict)
    (agents : option (list string)) : M dict :=
  let data : dict :=
    {[ "swarm_id" := JStr swarm_id;
       "task" := JStr task;
       "context" := JDict (py_or context ∅) ]} in
  let data := set_if_truthy "agents" agents jstrs data in
  bp <- self_base_path ;;
  client_post (bp ++ "/orchestrate") (Some data).

Definition get_status (swarm_id : string) : M dict :=
  bp <- self_base_path ;;
  client_get (bp ++ "/" ++ swarm_id ++ "/status") None.

Definition get_metrics (swarm_id project_id : option string) : M dict :=
  let params : dict := ∅ in
  let params := set_if_truthy "swarm_id" swarm_id JStr params in
  let params := set_if_truthy "project_id" project_id JStr params in
  bp <- self_base_path ;;
  client_get (bp ++ "/metrics") (Some params).

Definition get_agent_types : M json :=
  bp <- self_base_path ;;
  response <- client_get (bp ++ "/agent-types") None ;;
  ret (dict_get response "agent_types" (JList [])).

Definition configure_agent (swarm_id agent_id : string) (config : dict)
    : M dict :=
  bp <- self_base_path ;;
  client_put (bp ++ "/" ++ swarm_id ++ "/agents/" ++ agent_id ++ "/config")
             (Some config).

Definition set_agent_prompt (swarm_id agent_id prompt : string)
    (system_prompt : option string) : M dict :=
  let data : dict := {[ "prompt" := JStr prompt ]} in
  let data := set_if_truthy "system_prompt" system_prompt JStr data in
  bp <- self_base_path ;;
  client_post (bp ++ "/" ++ swarm_id ++ "/agents/" ++ agent_id ++ "/prompt")
              (Some data).

Definition stop_swarm (swarm_id : string) (force : bool) : M dict :=
  let data : dict := {[ "force" := JBool force ]} in
  bp <- self_base_path ;;
  client_post (bp ++ "/" ++ swarm_id ++ "/stop") (Some data).

Definition pause_swarm (swarm_id : string) : M dict :=
  bp <- self_base_path ;;
  client_post (bp ++ "/" ++ swarm_id ++ "/pause") None.

Definition resume_swarm (swarm_id : string) : M dict :=
  bp <- self_base_path ;;
  client_post (bp ++ "/" ++ swarm_id ++ "/resume") None.

Definition get_swarm_history (swarm_id : string) (limit : Z) : M json :=
  let params : dict := {[ "limit" := JInt limit ]} in
  bp <- self_base_path ;;
  response <- client_get (bp ++ "/" ++ swarm_id ++ "/history") (Some params) ;;
  ret (dict_get response "history" (JList [])).

Definition get_agent_communications (swarm_id : string)
    (agent_id : option string) : M json :=
  let params : dict := ∅ in
  let params := set_if_truthy "agent_id" agent_id JStr params in
  bp <- self_base_path ;;
  response <- client_get (bp ++ "/" ++ swarm_id ++ "/communications")
                         (Some params) ;;
  ret (dict_get response "communications" (JList [])).

Definition create_agent (name : string) (agent_type : AgentType)
    (capabilities : list string) (prompt : string) (config : option dict)
    : M dict :=
  let data : dict :=
    {[ "name" := JStr name;
       "type" := JStr (AgentType_value agent_type);
       "capabilities" := jstrs capabilities;
       "prompt" := JStr prompt;
       "config" := JDict (py_or config ∅) ]} in
  bp <- self_base_path ;;
  client_post (bp ++ "/agents") (Some data).

(** Running a method call; an envelope returned as it is counts as the
    JSON object it is. *)
Definition invoke (mc : MethodCall) : M json :=
  match mc with
  | StartSwarm p a o c => d <- start_swarm p a o c ;; ret (JDict d)
  | Orchestrate s t c a => d <- orchestrate s t c a ;; ret (JDict d)
  | GetStatus s => d <- get_status s ;; ret (JDict d)
  | GetMetrics s p => d <- get_metrics s p ;; ret (JDict d)
  | GetAgentTypes => get_agent_types
  | ConfigureAgent s a c => d <- configure_agent s a c ;; ret (JDict d)
  | SetAgentPrompt s a p sp => d <- set_agent_prompt s a p sp ;; ret (JDict d)
  | StopSwarm s f => d <- stop_swarm s f ;; ret (JDict d)
  | PauseSwarm s => d <- pause_swarm s ;; ret (JDict d)
  | ResumeSwarm s => d <- resume_swarm s ;; ret (JDict d)
  | GetSwarmHistory s l => get_swarm_history s l
  | GetAgentCommunications s a => get_agent_communications s a
  | CreateAgent n t c p cfg => d <- create_agent n t c p cfg ;; ret (JDict d)
  end.

(** The calls a computation hands to a parent client when run in [h]. *)
Definition dispatched_by {A} (m : M A) (h : Heap) : list (loc * ClientCall) :=
  drop (length (dispatched h)) (dispatched (snd (m h))).

End Methods.

Arguments Heap : clear implicits.
Arguments mkHeap {World} this world dispatched.

End AgentSwarm.

(* ===================================================================== *)
(** ** Signing primitives *)
(* ===================================================================== *)

Module Crypto.

(** The signing primitives the SDK takes from Python's standard library
    ([hashlib.sha256], [hmac.new(...).digest()], [base64.b64encode]),
    written out after FIPS 180-4, RFC 2104 and RFC 4648 so that a
    signature can be evaluated.  A byte is an integer in [0, 256); a
    Python [str] is identified with its UTF-8 bytes. *)

Abbreviation bytes := (list Z).

(** [str.encode()] *)
Definition encode (s : string) : bytes :=
  (λ a, Z.of_nat (Ascii.nat_of_ascii a)) <$> String.list_ascii_of_string s.

(** 32-bit words *)
Definition w32 (x : Z) : Z := x mod 2 ^ 32.
Definition add32 (x y : Z) : Z := w32 (x + y).
Definition rotr (n x : Z) : Z := Z.lor (Z.shiftr x n) (w32 (Z.shiftl x (32 - n))).
Definition not32 (x : Z) : Z := 2 ^ 32 - 1 - x.

Definition Ch (x y z : Z) : Z := Z.lxor (Z.land x y) (Z.land (not32 x) z).
Definition Maj (x y z : Z) : Z :=
  Z.lxor (Z.lxor (Z.land x y) (Z.land x z)) (Z.land y z).
Definition bsig0 (x : Z) : Z := Z.lxor (Z.lxor (rotr 2 x) (rotr 13 x)) (rotr 22 x).
Definition bsig1 (x : Z) : Z := Z.lxor (Z.lxor (rotr 6 x) (rotr 11 x)) (rotr 25 x).
Definition ssig0 (x : Z) : Z := Z.lxor (Z.lxor (rotr 7 x) (rotr 18 x)) (Z.shiftr x 3).
Definition ssig1 (x : Z) : Z := Z.lxor (Z.lxor (rotr 17 x) (rotr 19 x)) (Z.shiftr x 10).

(** The round constants are the leading 32 fractional bits of the cube
    roots of the first 64 primes, the initial hash those of the square
    roots of the first 8. *)
Definition is_prime (n : nat) : bool :=
  forallb (λ d, negb (Nat.eqb (n mod d) 0)) (seq 2 (n - 2)).
Definition primes (count : nat) : list Z :=
  Z.of_nat <$> take count (filter (λ n, is_prime n = true) (seq 2 320)).

Fixpoint icbrt_bits (bit : nat) (n r : Z) : Z :=
  match bit with
  | O => r
  | S b => let c := r + 2 ^ Z.of_nat b in
           icbrt_bits b n (if c * c * c <=? n then c else r)
  end.
Definition icbrt (n : Z) : Z := icbrt_bits 40 n 0.

Definition K256 : list Z := Eval vm_compute in
  (λ p, w32 (icbrt (p * 2 ^ 96))) <$> primes 64.
Definition H256 : list Z := Eval vm_compute in
  (λ p, w32 (Z.sqrt (p * 2 ^ 64))) <$> primes 8.

(** Big-endian conversions *)
Fixpoint be_bytes (n : nat) (x : Z) : bytes :=
  match n with
  | O => []
  | S k => (x / 256 ^ Z.of_nat k) mod 256 :: be_bytes k x
  end.
Definition be_word (bs : bytes) : Z := foldl (λ acc b, acc * 256 + b) 0 bs.

Fixpoint chunks {A} (fuel size : nat) (l : list A) : list (list A) :=
  match fuel with
  | O => []
  | S f => match l with
           | [] => []
           | _ => take size l :: chunks f size (drop size l)
           end
  end.

Definition pad (msg : bytes) : bytes :=
  let len := Z.of_nat (length msg) in
  let zeros := Z.to_nat ((55 - len) mod 64) in
  (msg ++ [128] ++ replicate zeros 0 ++ be_bytes 8 (8 * len))%list.

(** Message schedule, most recent word first. *)
Fixpoint schedule (n : nat) (w : list Z) : list Z :=
  match n with
  | O => w
  | S k =>
      let x := add32 (add32 (ssig1 (nth 1 w 0)) (nth 6 w 0))
                     (add32 (ssig0 (nth 14 w 0)) (nth 15 w 0)) in
      schedule k (x :: w)
  end.

Record regs := mkRegs { ra : Z; rb : Z; rc : Z; rd : Z; re : Z; rf : Z; rg : Z; rh : Z }.

Definition round (s : regs) (kw : Z * Z) : regs :=
  let t1 := add32 (add32 (add32 (rh s) (bsig1 (re s))) (Ch (re s) (rf s) (rg s)))
                  (add32 (fst kw) (snd kw)) in
  let t2 := add32 (bsig0 (ra s)) (Maj (ra s) (rb s) (rc s)) in
  mkRegs (add32 t1 t2) (ra s) (rb s) (rc s) (add32 (rd s) t1) (re s) (rf s) (rg s).

Definition regs_of (l : list Z) : regs :=
  mkRegs (nth 0 l 0) (nth 1 l 0) (nth 2 l 0) (nth 3 l 0)
         (nth 4 l 0) (nth 5 l 0) (nth 6 l 0) (nth 7 l 0).
Definition list_of (s : regs) : list Z :=
  [ra s; rb s; rc s; rd s; re s; rf s; rg s; rh s].

Definition compress (h : list Z) (block : bytes) : list Z :=
  let w := reverse (schedule 48 (reverse (be_word <$> chunks 16 4 block))) in
  let s := foldl round (regs_of h) (zip K256 w) in
  zip_with add32 h (list_of s).

Definition sha256 (msg : bytes) : bytes :=
  let p := pad msg in
  let h := foldl compress H256 (chunks (length p) 64 p) in
  h ≫= be_bytes 4.

(** RFC 2104 *)
Definition hmac_sha256 (key msg : bytes) : bytes :=
  let k := if 64 <? Z.of_nat (length key) then sha256 key else key in
  let k := (k ++ replicate (64 - length k) 0)%list in
  sha256 ((Z.lxor 92 <$> k) ++ sha256 ((Z.lxor 54 <$> k) ++ msg))%list.

(** RFC 4648 *)
Definition b64_alphabet : string :=
  "ABCDEFGHIJKLMNOPQRSTUVWXYZabcdefghijklmnopqrstuvwxyz0123456789+/".
Definition b64_char (i : Z) : string :=
  match String.get (Z.to_nat i) b64_alphabet with
  | Some c => String c EmptyString
  | None => EmptyString
  end.
Definition b64_group (g : bytes) : string :=
  let n := be_word (g ++ replicate (3 - length g) 0)%list in
  let c k := b64_char ((n / 64 ^ k) mod 64) in
  match length g with
  | 1%nat => c 3 ++ c 2 ++ "=="
  | 2%nat => c 3 ++ c 2 ++ c 1 ++ "="
  | _ => c 3 ++ c 2 ++ c 1 ++ c 0
  end.
Definition b64encode (bs : bytes) : string :=
  foldr (λ g acc, b64_group g ++ acc) EmptyString (chunks (length bs) 3 bs).

End Crypto.

(* ===================================================================== *)
(** ** ainative/exceptions.py *)
(* ===================================================================== *)

Module Exceptions.

(** Modelled from the spec: [ainative/exceptions.py] is not among the
    sources.  The classes are the ones the package exports and
    [tests/unit/test_exceptions.py] imports: a typed error hierarchy
    under one base class. *)
Inductive ExnClass : Type :=
  | AINativeException
  | AuthenticationError
  | APIError
  | NetworkError
  | ValidationError
  | RateLimitError
  | ResourceNotFoundError
  | TimeoutError.

#[global] Instance ExnClass_eq_dec : EqDecision ExnClass.
Proof. solve_decision. Defined.

(** Modelled from the spec: the superclass of each class inside the
    hierarchy ([None] for the root, which derives from the built-in
    [Exception]); every error type derives from the base
    [AINativeException]. *)
Definition base_class (c : ExnClass) : option ExnClass :=
  match c with
  | AINativeException => None
  | _ => Some AINativeException
  end.

(** The chain of superclasses of [c], starting at [c]. *)
Fixpoint ancestors (fuel : nat) (c : ExnClass) : list ExnClass :=
  c :: match fuel with
       | O => []
       | S f => match base_class c with
                | Some b => ancestors f b
                | None => []
                end
       end.

(** [issubclass(c, d)] *)
Definition issubclass (c d : ExnClass) : bool :=
  bool_decide (d ∈ ancestors 8 c).

(** Modelled from the spec: the [error_code] each class passes to the
    base constructor; the base class itself defaults to [None]. *)
Definition class_error_code (c : ExnClass) : option string :=
  match c with
  | AINativeException => None
  | AuthenticationError => Some "AUTH_ERROR"
  | APIError => Some "API_ERROR"
  | NetworkError => Some "NETWORK_ERROR"
  | ValidationError => Some "VALIDATION_ERROR"
  | RateLimitError => Some "RATE_LIMIT"
  | ResourceNotFoundError => Some "NOT_FOUND"
  | TimeoutError => Some "TIMEOUT"
  end.

(** Modelled from the spec: an exception object of [exceptions.py], its
    class and the attributes the request layer sets ([None] for an
    attribute the class leaves at its default). *)
Record Exn : Type := mkExn {
  exn_class : ExnClass;
  message : string;
  error_code : option string;
  details : dict;
  status_code : option Z;
  response_body : option string;
  retry_after : option Z;
}.

(** [isinstance(e, c)] *)
Definition isinstance (e : Exn) (c : ExnClass) : bool :=
  issubclass (exn_class e) c.

(** Modelled from the spec: the base constructor of [exceptions.py],
    which stores the message and the error code of the class. *)
Definition new_exn (c : ExnClass) (msg : string) : Exn :=
  {| exn_class := c; message := msg; error_code := class_error_code c;
     details := ∅; status_code := None; response_body := None;
     retry_after := None |}.

(** Modelled from the spec: the default messages of [exceptions.py], as
    [tests/unit/test_exceptions.py] expects them. *)
Definition AuthenticationError_default : string := "Authentication failed".
Definition NetworkError_default : string := "Network error occurred".
Definition RateLimitError_default : string := "Rate limit exceeded".

(** Modelled from the spec: [AuthenticationError(message)]. *)
Definition new_AuthenticationError (msg : string) : Exn :=
  new_exn AuthenticationError msg.

(** Modelled from the spec: [NetworkError(message)]. *)
Definition new_NetworkError (msg : string) : Exn :=
  new_exn NetworkError msg.

(** Modelled from the spec: [APIError(message, status_code,
    response_body)]. *)
Definition new_APIError (msg : string) (status : option Z)
    (body : option string) : Exn :=
  {| exn_class := APIError; message := msg;
     error_code := class_error_code APIError; details := ∅;
     status_code := status; response_body := body; retry_after := None |}.

(** Modelled from the spec: [RateLimitError(message, retry_after)]. *)
Definition new_RateLimitError (msg : string) (after : option Z) : Exn :=
  {| exn_class := RateLimitError; message := msg;
     error_code := class_error_code RateLimitError; details := ∅;
     status_code := None; response_body := None; retry_after := after |}.

(** What a call into the request layer may raise: an SDK exception or the
    built-in [ValueError]. *)
Inductive Error : Type :=
  | ValueError (msg : string)
  | SDKError (e : Exn).

End Exceptions.

(* ===================================================================== *)
(** ** ainative/auth.py *)
(* ===================================================================== *)

Module Auth.
Import Crypto Exceptions.

(** [ainative.__version__], sent as [X-SDK-Version]. *)
Definition __version__ : string := "0.1.0".

(** Modelled from the spec: [ainative/auth.py] is not among the sources.
    The fields of [AuthConfig] are those [tests/unit/test_auth.py] reads;
    a key or secret that was neither passed nor found in the environment
    is [None]. *)
Record AuthConfig : Type := mkAuthConfig {
  api_key : option string;
  api_secret : option string;
  environment : string;
  auto_refresh : bool;
  timeout : Z;
}.

(** Modelled from the spec: [AuthConfig.is_configured], whether an API
    key is there. *)
Definition is_configured (cfg : AuthConfig) : bool := truthy (api_key cfg).

(** HTTP headers: a dictionary from header names to values. *)
Abbreviation headers := (gmap string string).

(** [str(int(time.time()))] for a clock that reads [now] seconds. *)
Definition str_of_int (now : Z) : string :=
  NilZero.string_of_int (Z.to_int now).

(** [int(s)] for a decimal numeral. *)
Definition int_of_str (s : string) : option Z :=
  Z.of_int <$> NilZero.int_of_string s.

(** Modelled from the spec: [APIKeyAuth._generate_signature], the HMAC
    request signature: the base64 encoding of the HMAC-SHA256 digest,
    keyed by the API secret, of the API key followed by the timestamp. *)
Definition _generate_signature (key secret timestamp : string) : string :=
  b64encode (hmac_sha256 (encode secret) (encode (key ++ timestamp))).

(** Modelled from the spec: [APIKeyAuth.get_headers], the composition of
    the authentication headers.  Without an API key it raises
    [ValueError]; the timestamp and the signature are added when an API
    secret is set.  As everywhere in the SDK an optional value counts as
    set when it is truthy (neither [None] nor empty). *)
Definition get_headers (cfg : AuthConfig) (now : Z) : Outcome Error headers :=
  match api_key cfg with
  | None => Raised (ValueError "API key not configured")
  | Some key =>
      if truthy key then
        let hs : headers :=
          {[ "X-API-Key" := key;
             "X-SDK-Version" := __version__;
             "X-SDK-Language" := "Python" ]} in
        match api_secret cfg with
        | None => Returned hs
        | Some secret =>
            if truthy secret then
              let timestamp := str_of_int now in
              let hs := <["X-Timestamp" := timestamp]> hs in
              let hs := <["X-Signature" :=
                            _generate_signature key secret timestamp]> hs in
              Returned hs
            else Returned hs
        end
      else Raised (ValueError "API key not configured")
  end.

(** Modelled from the spec: [MultiTenantAuth.get_headers], the headers
    of [APIKeyAuth] plus the organization header when an organization ID
    is set. *)
Definition MultiTenantAuth_get_headers (cfg : AuthConfig)
    (organization_id : option string) (now : Z) : Outcome Error headers :=
  match get_headers cfg now with
  | Raised e => Raised e
  | Returned hs =>
      match organization_id with
      | None => Returned hs
      | Some org =>
          if truthy org then Returned (<["X-Organization-ID" := org]> hs)
          else Returned hs
      end
  end.

End Auth.

(* ===================================================================== *)
(** ** ainative/client.py *)
(* ===================================================================== *)

Module Client.
Import Exceptions Auth.

(** Modelled from the spec: [ainative/client.py] is not among the
    sources.  [ClientConfig] has the fields and defaults of
    [tests/unit/test_client.py]; [max_retries] counts attempts and
    [retry_delay] is a number of seconds (a rational here). *)
Record ClientConfig : Type := mkClientConfig {
  base_url : string;
  timeout : Z;
  max_retries : nat;
  retry_delay : Q;
  verify_ssl : bool;
  debug : bool;
}.

(** Modelled from the spec: [ClientConfig()], the default
    configuration. *)
Definition default_config : ClientConfig :=
  {| base_url := "https://api.ainative.studio/api/v1";
     timeout := 30;
     max_retries := 3;
     retry_delay := 1%Q;
     verify_ssl := true;
     debug := false |}.

(** Modelled from the spec: the fields of [AINativeClient] a request
    reads. *)
Record AINativeClient : Type := mkClient {
  auth_config : AuthConfig;
  config : ClientConfig;
  organization_id : option string;
}.

(** The keyword arguments of one [self._client.request(...)]. *)
Record HttpRequest : Type := mkHttpRequest {
  method : string;
  url : string;
  json_body : option dict;
  query : option dict;
  request_headers : headers;
}.

(** An [httpx.Response]: status, body text, headers and the value
    [response.json()] returns. *)
Record Response : Type := mkResponse {
  resp_status : Z;
  resp_text : string;
  resp_headers : headers;
  resp_json : dict;
}.

(** What one underlying HTTP attempt does: it raises
    [httpx.NetworkError], raises [httpx.TimeoutException], or returns a
    response. *)
Inductive Attempted : Type :=
  | ConnectionFailed (msg : string)
  | TimedOut (msg : string)
  | Responded (r : Response).

(** A transient network failure: a connection error or a timeout. *)
Definition transient (a : Attempted) : bool :=
  match a with
  | ConnectionFailed _ | TimedOut _ => true
  | Responded _ => false
  end.

(** What the client does to the outside, in order. *)
Inductive Event : Type :=
  | Attempt (rq : HttpRequest)
  | Sleep (seconds : Q).

Definition attempts (log : list Event) : list HttpRequest :=
  omap (λ e, match e with Attempt rq => Some rq | Sleep _ => None end) log.

Definition sleeps (log : list Event) : list Q :=
  omap (λ e, match e with Sleep d => Some d | Attempt _ => None end) log.

(** Modelled from the spec: the sleep before the retry that follows
    attempt number [attempt] (counting from 0), growing linearly from
    the configured [retry_delay]. *)
Definition backoff (cfg : ClientConfig) (attempt : nat) : Q :=
  retry_delay cfg * inject_Z (Z.of_nat attempt + 1).

(** The trace of [k] failed attempts in a row, the first of them attempt
    number [attempt], each followed by its sleep. *)
Fixpoint retries_from (cfg : ClientConfig) (rq : HttpRequest)
    (attempt k : nat) : list Event :=
  match k with
  | O => []
  | S k' =>
      Attempt rq :: Sleep (backoff cfg attempt)
        :: retries_from cfg rq (S attempt) k'
  end.

(** [endpoint.lstrip("/")] *)
Fixpoint lstrip_slash (s : string) : string :=
  match s with
  | String "/"%char rest => lstrip_slash rest
  | _ => s
  end.

(** Modelled from the spec: the request URL, the base URL followed by the
    endpoint. *)
Definition build_url (cfg : ClientConfig) (endpoint : string) : string :=
  base_url cfg ++ "/" ++ lstrip_slash endpoint.

(** Modelled from the spec: the [NetworkError] the client keeps for a
    failed attempt. *)
Definition network_error_of (a : Attempted) : Exn :=
  match a with
  | ConnectionFailed msg => new_NetworkError ("Network error: " ++ msg)
  | TimedOut msg => new_NetworkError ("Request timed out: " ++ msg)
  | Responded _ => new_NetworkError NetworkError_default
  end.

(** Modelled from the spec: which statuses count as success.  The
    client and server error classes (400 and above) are the failures;
    the statuses below are not errors. *)
Definition success_status (status : Z) : bool := status <? 400.

(** Modelled from the spec: the translation of the HTTP status into the
    typed error hierarchy.  429 raises [RateLimitError] with the integer
    value of [Retry-After], 401 raises [AuthenticationError], any other
    non-success status raises [APIError] with the status and the body;
    on success the parsed JSON is returned (the empty dictionary for an
    empty body). *)
Definition handle_response (r : Response) : Outcome Error dict :=
  if resp_status r =? 429 then
    Raised (SDKError (new_RateLimitError RateLimitError_default
                        (resp_headers r !! "Retry-After" ≫= int_of_str)))
  else if resp_status r =? 401 then
    Raised (SDKError (new_AuthenticationError
                        "Invalid API key or unauthorized access"))
  else if negb (success_status (resp_status r)) then
    Raised (SDKError (new_APIError
                        ("API request failed: " ++ resp_text r)
                        (Some (resp_status r)) (Some (resp_text r))))
  else
    Returned (if truthy (resp_text r) then resp_json r else ∅).

(** Modelled from the spec: the headers of a request.  The
    authentication headers, the organization header when an organization
    ID is set on the client, and the caller's headers merged in without
    replacing any of the former. *)
Definition compose_headers (self : AINativeClient) (now : Z)
    (custom : option headers) : Outcome Error headers :=
  match get_headers (auth_config self) now with
  | Raised e => Raised e
  | Returned hs =>
      let hs :=
        match organization_id self with
        | Some org =>
            if truthy org then <["X-Organization-ID" := org]> hs else hs
        | None => hs
        end in
      match custom with
      | Some extra => Returned (hs ∪ extra)
      | None => Returned hs
      end
  end.

Section Transport.

(** The network: what the [n]-th underlying HTTP attempt (counting from
    0) does with the request it is given. *)
Variable transport : nat → HttpRequest → Attempted.

(** Modelled from the spec: the bounded retry loop of
    [AINativeClient.request], [for attempt in range(max_retries)].
    A response ends the loop (by returning or by raising the typed
    error); a transient failure is remembered, the client sleeps unless
    this was the last attempt, and the loop goes on; after the last
    attempt the remembered [NetworkError] is raised. *)
Fixpoint retry_loop (cfg : ClientConfig) (rq : HttpRequest)
    (remaining attempt : nat) (last : option Exn) (log : list Event)
    : Outcome Error dict * list Event :=
  match remaining with
  | O =>
      (Raised (SDKError (default (new_NetworkError NetworkError_default) last)),
       log)
  | S rest =>
      let result := transport (length (attempts log)) rq in
      let log := (log ++ [Attempt rq])%list in
      match result with
      | Responded r => (handle_response r, log)
      | failure =>
          let log :=
            if (S attempt <? max_retries cfg)%nat
            then (log ++ [Sleep (backoff cfg attempt)])%list
            else log in
          retry_loop cfg rq rest (S attempt) (Some (network_error_of failure)) log
      end
  end.

(** Modelled from the spec: [AINativeClient.request]. *)
Definition request (self : AINativeClient) (now : Z)
    (meth endpoint : string) (data params : option dict)
    (custom : option headers) (log : list Event)
    : Outcome Error dict * list Event :=
  match compose_headers self now custom with
  | Raised e => (Raised e, log)
  | Returned hs =>
      let rq := {| method := meth;
                   url := build_url (config self) endpoint;
                   json_body := data;
                   query := params;
                   request_headers := hs |} in
      retry_loop (config self) rq (max_retries (config self)) 0 None log
  end.

(** Modelled from the spec: the convenience method [AINativeClient.get],
    a request with the method fixed. *)
Definition get (self : AINativeClient) (now : Z) (endpoint : string)
    (params : option dict) (log : list Event) :=
  request self now "GET" endpoint None params None log.

(** Modelled from the spec: the convenience method
    [AINativeClient.post]. *)
Definition post (self : AINativeClient) (now : Z) (endpoint : string)
    (data : option dict) (log : list Event) :=
  request self now "POST" endpoint data None None log.

(** Modelled from the spec: the convenience method
    [AINativeClient.put]. *)
Definition put (self : AINativeClient) (now : Z) (endpoint : string)
    (data : option dict) (log : list Event) :=
  request self now "PUT" endpoint data None None log.

End Transport.

End Client.

(* ===================================================================== *)
(** ** Fixtures *)
(* ===================================================================== *)

Module Fixtures.
Import AgentSwarm Exceptions Auth Client.

(** The fixtures of [tests/conftest.py] and the stand-ins the unit tests
    put in place of the parent client and of the network. *)

(** A parent client that answers every call with one envelope, as the
    mocked client of [tests/unit/test_agent_swarm.py] does. *)
Definition mock_client (envelope : dict)
    : loc → ClientCall → unit → Outcome unit dict * unit :=
  λ _ _ w, (Returned envelope, w).

Definition fresh_heap : Heap unit :=
  mkHeap (AgentSwarmClient_init 0%nat) tt [].

Definition types_envelope : dict :=
  {[ "agent_types" := JList [JStr "researcher"; JStr "coder"] ]}.

Definition test_auth : AuthConfig :=
  {| api_key := Some "test-api-key-12345";
     api_secret := Some "test-api-secret-67890";
     environment := "development";
     auto_refresh := true;
     Auth.timeout := 30 |}.

Definition test_config : ClientConfig :=
  {| base_url := "https://api.test.ainative.studio/api/v1";
     Client.timeout := 30;
     max_retries := 3;
     retry_delay := 1%Q;
     verify_ssl := true;
     debug := true |}.

Definition test_client : AINativeClient :=
  {| auth_config := test_auth; config := test_config;
     organization_id := None |}.

(** 2024-01-01 00:00:00 UTC, the mocked clock. *)
Definition mock_time : Z := 1704067200.

(** [side_effect = httpx.NetworkError("Persistent failure")] *)
Definition network_down : nat → HttpRequest → Attempted :=
  λ _ _, ConnectionFailed "Persistent failure".

Definition mock_response (status : Z) (json_data : dict) : Response :=
  {| resp_status := status; resp_text := "{...}"; resp_headers := ∅;
     resp_json := json_data |}.

(** [side_effect = [NetworkError, NetworkError, mock_response(200, ...)]] *)
Definition recovers_on_third : nat → HttpRequest → Attempted :=
  λ n _, if (n <? 2)%nat then ConnectionFailed "Connection failed"
         else Responded (mock_response 200 {[ "success" := JBool true ]}).

(** [return_value = response]: every attempt gets the same response. *)
Definition answers (r : Response) : nat → HttpRequest → Attempted :=
  λ _ _, Responded r.

(** A 429 response with [Retry-After: 60]. *)
Definition rate_limited : nat → HttpRequest → Attempted :=
  λ _ _, Responded {| resp_status := 429; resp_text := EmptyString;
                      resp_headers := {[ "Retry-After" := "60" ]};
                      resp_json := ∅ |}.

End Fixtures.

(* ===================================================================== *)
(** ** Names for statements about the Agent Swarm routes *)
(* ===================================================================== *)

Module Routes.
Import AgentSwarm.

(** The name of the method a call invokes. *)
Definition method_name (mc : MethodCall) : string :=
  match mc with
  | StartSwarm _ _ _ _ => "start_swarm"
  | Orchestrate _ _ _ _ => "orchestrate"
  | GetStatus _ => "get_status"
  | GetMetrics _ _ => "get_metrics"
  | GetAgentTypes => "get_agent_types"
  | ConfigureAgent _ _ _ => "configure_agent"
  | SetAgentPrompt _ _ _ _ => "set_agent_prompt"
  | StopSwarm _ _ => "stop_swarm"
  | PauseSwarm _ => "pause_swarm"
  | ResumeSwarm _ => "resume_swarm"
  | GetSwarmHistory _ _ => "get_swarm_history"
  | GetAgentCommunications _ _ => "get_agent_communications"
  | CreateAgent _ _ _ _ _ => "create_agent"
  end.

(** The characters of a string. *)
Definition chars (s : string) : list ascii := String.list_ascii_of_string s.

(** Whether an identifier is free of the path separator. *)
Definition slash_free (s : string) : Prop := "/"%char ∉ chars s.

(** A parent client that raises the same exception on every call, as
    [side_effect = APIError(...)] does. *)
Definition failing_client {E : Type} (e : E)
    : loc → ClientCall → unit → Outcome E dict * unit :=
  λ _ _ w, (Raised e, w).

End Routes.

(* ===================================================================== *)
(** ** tests/conftest.py *)
(* ===================================================================== *)

Module Conftest.

(** [os.environ] *)
Abbreviation environ := (gmap string string).

(** The variables [reset_environment] clears. *)
Definition env_vars : list string :=
  [ "AINATIVE_API_KEY"; "AINATIVE_API_SECRET"; "AINATIVE_ORG_ID" ].

(** [d[key] = value] on a dictionary that keeps insertion order: the
    value of an existing key is replaced in place, a new key goes to the
    end. *)
Fixpoint dict_assign {V} (key : string) (value : V)
    (d : list (string * V)) : list (string * V) :=
  match d with
  | [] => [(key, value)]
  | (k, v) :: rest =>
      if decide (k = key) then (k, value) :: rest
      else (k, v) :: dict_assign key value rest
  end.

(** [reset_environment] up to its [yield]: the values of the variables
    are saved ([None] for a variable that is not set) and the variables
    are removed from the environment. *)
Definition reset_environment_setup (env : environ)
    : list (string * option string) * environ :=
  foldl (λ st var,
           let original_values := dict_assign var (snd st !! var) (fst st) in
           let env := if decide (is_Some (snd st !! var))
                      then delete var (snd st) else snd st in
           (original_values, env))
        ([], env) env_vars.

(** [reset_environment] after its [yield]: every saved value that is not
    [None] is written back. *)
Definition reset_environment_teardown
    (original_values : list (string * option string)) (env : environ)
    : environ :=
  foldl (λ env item,
           match snd item with
           | Some value => <[fst item := value]> env
           | None => env
           end)
        env original_values.

(** The fixture around a test: set-up, the test, tear-down. *)
Definition reset_environment (test : environ → environ) (env : environ)
    : environ :=
  let '(original_values, env) := reset_environment_setup env in
  reset_environment_teardown original_values (test env).

End Conftest.

(* ===================================================================== *)
(** ** run_tests.py *)
(* ===================================================================== *)

Module RunTests.

(** The parsed command line of the runner. *)
Record Args : Type := mkArgs {
  unit_only : bool;
  integration_only : bool;
  no_coverage : bool;
  verbose : bool;
  fast : bool;
}.

(** [sep.join(parts)] *)
Fixpoint join (sep : string) (parts : list string) : string :=
  match parts with
  | [] => EmptyString
  | [p] => p
  | p :: rest => p ++ sep ++ join sep rest
  end.

(** The words [main] collects in [pytest_cmd_parts]. *)
Definition pytest_cmd_parts (args : Args) : list string :=
  let parts := [ "python"; "-m"; "pytest" ] in
  let parts := (parts ++ [ if verbose args then "-v" else "-q" ])%list in
  let parts :=
    if negb (no_coverage args)
    then (parts ++ [ "--cov=ainative";
                     "--cov-report=term-missing";
                     "--cov-report=html:htmlcov";
                     "--cov-report=xml:coverage.xml";
                     "--cov-fail-under=90" ])%list
    else parts in
  let marker_conditions : list string := [] in
  let marker_conditions :=
    if fast args then (marker_conditions ++ [ "not slow" ])%list
    else marker_conditions in
  let st :=
    if unit_only args then
      ((parts ++ [ "tests/unit/" ])%list, marker_conditions)
    else if integration_only args then
      ((parts ++ [ "tests/integration/" ])%list,
       (marker_conditions ++ [ "integration" ])%list)
    else
      ((parts ++ [ "tests/" ])%list, marker_conditions) in
  let parts := fst st in
  let marker_conditions := snd st in
  let parts :=
    if truthy marker_conditions
    then (parts ++ [ "-m"; join " and " marker_conditions ])%list
    else parts in
  (parts ++ [ "--tb=short"; "--strict-markers"; "--durations=10" ])%list.

(** [pytest_cmd], the command line handed to the shell. *)
Definition pytest_cmd (args : Args) : string :=
  join " " (pytest_cmd_parts args).

(** The words the shell of [subprocess.run(command, shell=True)] makes of
    a command line that has no quotes and no other special character:
    the fields between blanks. *)
Definition shell_words (command : string) : list string :=
  String.words command.

(** [subprocess.CompletedProcess] *)
Record CompletedProcess : Type := mkCompleted {
  stdout : string;
  stderr : string;
  returncode : Z;
}.

(** What the runner does to the outside: the working directory, what it
    printed (one entry for each [print]) and the commands it ran. *)
Record World : Type := mkWorld {
  cwd : string;
  printed : list string;
  ran : list string;
}.

Definition newline : string := String "010"%char EmptyString.

(** ['=' * 60] *)
Definition rule : string :=
  "============================================================".

(** [str(n)] for an integer. *)
Definition str (n : Z) : string := NilZero.string_of_int (Z.to_int n).

Definition print (line : string) (w : World) : World :=
  {| cwd := cwd w; printed := (printed w ++ [line])%list; ran := ran w |}.

Definition print_all (lines : list string) (w : World) : World :=
  foldl (λ w line, print line w) w lines.

Section Runner.

(** [Path(__file__).parent] and [sys.version]. *)
Variables (project_dir sys_version : string).

(** [subprocess.run(command, shell=True, capture_output=True, text=True)]:
    what the command answers in the world it is run in. *)
Variable subprocess_run : string → World → CompletedProcess.

(** [run_command] *)
Definition run_command (command description : string) (w : World)
    : CompletedProcess * World :=
  let w := print (newline ++ rule) w in
  let w := if truthy description then print ("Running: " ++ description) w
           else w in
  let w := print ("Command: " ++ command) w in
  let w := print rule w in
  let result := subprocess_run command w in
  let w := {| cwd := cwd w; printed := printed w;
              ran := (ran w ++ [command])%list |} in
  let w := if truthy (stdout result)
           then print (stdout result) (print "STDOUT:" w) else w in
  let w := if truthy (stderr result)
           then print (stderr result) (print "STDERR:" w) else w in
  let w := print ("Exit code: " ++ str (returncode result)) w in
  (result, w).

(** [main], after the command line is parsed: the exit code and the
    world it leaves. *)
Definition main (args : Args) (w : World) : Z * World :=
  let w := {| cwd := project_dir; printed := printed w; ran := ran w |} in
  let w := print ("Running tests from: " ++ project_dir) w in
  let w := print ("Python version: " ++ sys_version) w in
  let w := print (newline ++ "Installing dependencies...") w in
  let '(install_result, w) :=
    run_command "pip install -e .[dev]"
                "Installing package in development mode" w in
  if negb (returncode install_result =? 0) then
    (1, print "Failed to install dependencies" w)
  else
    let '(test_result, w) :=
      run_command (pytest_cmd args) "Running test suite" w in
    let w := print_all [ newline ++ rule; "TEST SUMMARY"; rule ] w in
    let w := if returncode test_result =? 0
             then print "✅ All tests passed!" w
             else print "❌ Some tests failed!" w in
    let w :=
      if negb (no_coverage args) && (returncode test_result =? 0)
      then print_all [ newline ++ "Coverage report generated:";
                       "  - Terminal: (shown above)";
                       "  - HTML: " ++ project_dir ++ "/htmlcov/index.html";
                       "  - XML: " ++ project_dir ++ "/coverage.xml" ] w
      else w in
    let w := print_all
               [ newline ++ "Test files location: " ++ project_dir ++ "/tests/";
                 "Configuration: " ++ project_dir ++ "/pytest.ini" ] w in
    (returncode test_result, w).

End Runner.

End RunTests.

(* ===================================================================== *)
(** ** Stand-ins for the runner's subprocesses and for failing calls *)
(* ===================================================================== *)

Module Scenarios.
Import Exceptions RunTests Conftest.

(** [APIError("Swarm not found", status_code=404)], one of the errors
    [tests/unit/test_agent_swarm.py] lets the parent client raise. *)
Definition swarm_not_found : Exn :=
  new_APIError "Swarm not found" (Some 404) None.

(** An environment with the API key set, and a test that touches
    nothing. *)
Definition key_only : environ := {[ "AINATIVE_API_KEY" := "from-shell" ]}.

Definition idle_test : environ → environ := λ env, env.

(** The runner called without options, and with [--fast]. *)
Definition no_options : Args := mkArgs false false false false false.

Definition fast_only : Args := mkArgs false false false false true.

Definition at_start : World :=
  {| cwd := "/home/dev"; printed := []; ran := [] |}.

(** Every command fails with exit code 1. *)
Definition nothing_works : string → World → CompletedProcess :=
  λ _ _, {| stdout := EmptyString; stderr := "error"; returncode := 1 |}.

(** Every command succeeds. *)
Definition all_green : string → World → CompletedProcess :=
  λ _ _, {| stdout := "ok"; stderr := EmptyString; returncode := 0 |}.

End Scenarios.

(* ===================================================================== *)
(** * Properties of the Agent Swarm resource methods *)
(* ===================================================================== *)

Section AgentSwarmFacts.
Import AgentSwarm.
#[local] Open Scope list_scope.

Context {World Exn : Type}.
Variable client_call : loc → ClientCall → World → Outcome Exn dict * World.

Implicit Types (h : Heap World) (c : loc) (rq : ClientCall).

(** What one call to the parent does to the state. *)
Lemma call_this c rq h : this (snd (call client_call c rq h)) = this h.
Proof. reflexivity. Qed.

Lemma call_dispatched c rq h :
  dispatched (snd (call client_call c rq h)) = dispatched h ++ [(c, rq)].
Proof. reflexivity. Qed.

Lemma dispatched_by_call c rq h :
  dispatched_by (call client_call c rq) h = [(c, rq)].
Proof.
  unfold dispatched_by. rewrite call_dispatched.
  by rewrite drop_app_length.
Qed.

(** Post-processing the answer of a computation does not change what it
    does to the state. *)
Lemma bind_ret_state {A B} (m : M A) (f : A → B) h :
  snd (bind (Exn := Exn) m (λ a, ret (f a)) h) = snd (m h).
Proof. unfold bind, ret. by destruct (m h) as [[a|e] h']. Qed.

Lemma dispatched_by_bind_ret {A B} (m : M A) (f : A → B) h :
  dispatched_by (bind (Exn := Exn) m (λ a, ret (f a))) h = dispatched_by m h.
Proof. unfold dispatched_by. by rewrite bind_ret_state. Qed.

End AgentSwarmFacts.

Section AgentSwarmShape.
Import AgentSwarm.
#[local] Open Scope list_scope.

(** Every method hands exactly one call to the parent, and that call is
    fixed by the method, its arguments and [base_path]. *)
Lemma invoke_shape (mc : MethodCall) (bp : string) :
  ∃ rq : ClientCall,
    ∀ (World Exn : Type)
      (client_call : loc → ClientCall → World → Outcome Exn dict * World)
      (h : Heap World),
      base_path (this h) = bp →
      snd (invoke client_call mc h)
      = snd (call client_call (client (this h)) rq h).
Proof.
  destruct mc; eexists; intros World Exn cc h Hbp; cbn -[call].
  all: try rewrite bind_ret_state.
  all: unfold start_swarm, orchestrate, get_status, get_metrics,
    configure_agent, set_agent_prompt, stop_swarm, pause_swarm, resume_swarm,
    create_agent, client_get, client_post, client_put.
  all: cbn -[call]; rewrite Hbp; reflexivity.
Qed.

(** C6. No resource method of [AgentSwarmClient] changes a field of its
    receiver, and for a client built by the constructor the call handed
    to the parent (convenience method, endpoint, JSON body and query
    parameters) depends on the method and its arguments only: whatever
    the parent, the world and the history, a call and its repetition
    dispatch the same request. *)
Theorem swarm_methods_frame_and_determinism (mc : MethodCall) :
  (∀ (World Exn : Type)
     (client_call : loc → ClientCall → World → Outcome Exn dict * World)
     (h : Heap World),
     this (snd (invoke client_call mc h)) = this h)
  ∧ ∃ rq : ClientCall,
      ∀ (World Exn : Type)
        (client_call : loc → ClientCall → World → Outcome Exn dict * World)
        (parent : loc) (w : World) (log : list (loc * ClientCall)),
        let h0 := mkHeap (AgentSwarmClient_init parent) w log in
        let h1 := snd (invoke client_call mc h0) in
        dispatched_by (invoke client_call mc) h0 = [(parent, rq)]
        ∧ dispatched_by (invoke client_call mc) h1 = [(parent, rq)].
Proof.
  split.
  - intros World Exn cc h.
    destruct (invoke_shape mc (base_path (this h))) as [rq Hrq].
    by rewrite (Hrq World Exn cc h eq_refl).
  - destruct (invoke_shape mc "/agent-swarm") as [rq Hrq].
    exists rq. intros World Exn cc parent w log h0 h1.
    assert (H0 : snd (invoke cc mc h0) = snd (call cc parent rq h0))
      by (apply (Hrq World Exn cc h0); reflexivity).
    assert (Hthis : this h1 = AgentSwarmClient_init parent)
      by (unfold h1; rewrite H0; reflexivity).
    assert (H1 : snd (invoke cc mc h1) = snd (call cc parent rq h1)).
    { rewrite (Hrq World Exn cc h1) by (by rewrite Hthis).
      by rewrite Hthis. }
    unfold dispatched_by. rewrite H0, H1, !call_dispatched.
    by rewrite !drop_app_length.
Qed.

End AgentSwarmShape.

Section AgentSwarmRequests.
Import AgentSwarm.
#[local] Open Scope list_scope.

Context {World Exn : Type}.
Variable client_call : loc → ClientCall → World → Outcome Exn dict * World.
Implicit Types (h : Heap World).

Lemma set_if_truthy_falsy {A} `{Truthy A} key (arg : option A) to_json
    (d : dict) :
  truthy arg = false → set_if_truthy key arg to_json d = d.
Proof.
  unfold set_if_truthy. destruct arg as [a|]; [|done].
  cbn. by intros ->.
Qed.

Lemma lookup_set_if_truthy {A} `{Truthy A} key (arg : option A) to_json
    (d : dict) :
  d !! key = None →
  set_if_truthy key arg to_json d !! key
  = if truthy arg then to_json <$> arg else None.
Proof.
  intros Hd. unfold set_if_truthy. destruct arg as [a|]; [|done].
  cbn. destruct (truthy a); [by rewrite lookup_insert_eq | done].
Qed.

Lemma lookup_set_if_truthy_None {A} `{Truthy A} key key' (arg : option A)
    to_json (d : dict) :
  key ≠ key' → d !! key' = None →
  set_if_truthy key arg to_json d !! key' = None.
Proof.
  intros Hne Hd. unfold set_if_truthy. destruct arg as [a|]; [|done].
  destruct (truthy a); [by rewrite lookup_insert_ne | done].
Qed.

Lemma py_or_falsy {A} `{Truthy A} (x : option A) (y : A) :
  truthy x = false → py_or x y = y.
Proof. destruct x as [a|]; [|done]. cbn. by intros ->. Qed.

(** The methods that return the envelope as it is are one call. *)
Lemma dispatched_by_ext {A} (m m' : M A) h :
  m h = m' h → dispatched_by (Exn := Exn) m h = dispatched_by m' h.
Proof. unfold dispatched_by. by intros ->. Qed.

Ltac one_call :=
  etrans;
  [ eapply (dispatched_by_ext _ (call client_call _ _)); reflexivity
  | apply dispatched_by_call ].

(** C7. Whatever envelope the parent returns, [get_agent_types] returns
    the value under "agent_types", [get_swarm_history] the value under
    "history" and [get_agent_communications] the value under
    "communications", and each returns the empty list when its key is
    absent. *)
Theorem envelope_unwrapping h (envelope : dict) :
  (∀ rq, fst (client_call (client (this h)) rq (world h)) = Returned envelope) →
  fst (get_agent_types client_call h)
    = Returned (match envelope !! "agent_types" with
                | Some v => v
                | None => JList []
                end)
  ∧ (∀ swarm_id limit,
       fst (get_swarm_history client_call swarm_id limit h)
       = Returned (match envelope !! "history" with
                   | Some v => v
                   | None => JList []
                   end))
  ∧ (∀ swarm_id agent_id,
       fst (get_agent_communications client_call swarm_id agent_id h)
       = Returned (match envelope !! "communications" with
                   | Some v => v
                   | None => JList []
                   end)).
Proof.
  intros Hanswer.
  unfold get_agent_types, get_swarm_history, get_agent_communications,
    client_get, bind, call, self_base_path, self_client, ret.
  cbn. repeat split; intros; by rewrite Hanswer.
Qed.

(** C8. In [orchestrate], [get_metrics] and [set_agent_prompt] an
    optional argument reaches the request only when it is truthy: the
    key is present exactly then, and a falsy value gives the very
    computation the absent argument gives.  [orchestrate] with
    [agents=[]] sends a body without "agents"; [get_metrics] with both
    filters [None] sends empty query parameters. *)
Theorem falsy_optional_arguments_are_omitted h :
  (* orchestrate *)
  (∀ swarm_id task context agents,
     (truthy agents = false →
      orchestrate client_call swarm_id task context agents h
      = orchestrate client_call swarm_id task context None h)
     ∧ (truthy context = false →
        orchestrate client_call swarm_id task context agents h
        = orchestrate client_call swarm_id task None agents h)
     ∧ ∃ body : dict,
         dispatched_by
           (orchestrate client_call swarm_id task context agents) h
         = [(client (this h),
             mkCall POST (base_path (this h) ++ "/orchestrate")
                    (Some body) None)]
         ∧ body !! "agents"
           = if truthy agents then jstrs <$> agents else None)
  ∧ (∀ swarm_id task context,
       ∃ body : dict,
         dispatched_by
           (orchestrate client_call swarm_id task context (Some [])) h
         = [(client (this h),
             mkCall POST (base_path (this h) ++ "/orchestrate")
                    (Some body) None)]
         ∧ body !! "agents" = None)
  (* get_metrics *)
  ∧ (∀ swarm_id project_id,
       (truthy swarm_id = false →
        get_metrics client_call swarm_id project_id h
        = get_metrics client_call None project_id h)
       ∧ (truthy project_id = false →
          get_metrics client_call swarm_id project_id h
          = get_metrics client_call swarm_id None h)
       ∧ ∃ params : dict,
           dispatched_by (get_metrics client_call swarm_id project_id) h
           = [(client (this h),
               mkCall GET (base_path (this h) ++ "/metrics")
                      None (Some params))]
           ∧ params !! "swarm_id"
             = (if truthy swarm_id then JStr <$> swarm_id else None)
           ∧ params !! "project_id"
             = (if truthy project_id then JStr <$> project_id else None))
  ∧ dispatched_by (get_metrics client_call None None) h
    = [(client (this h),
        mkCall GET (base_path (this h) ++ "/metrics") None (Some ∅))]
  (* set_agent_prompt *)
  ∧ (∀ swarm_id agent_id prompt system_prompt,
       (truthy system_prompt = false →
        set_agent_prompt client_call swarm_id agent_id prompt system_prompt h
        = set_agent_prompt client_call swarm_id agent_id prompt None h)
       ∧ ∃ body : dict,
           dispatched_by
             (set_agent_prompt client_call swarm_id agent_id prompt
                system_prompt) h
           = [(client (this h),
               mkCall POST
                 (base_path (this h) ++ "/" ++ swarm_id ++ "/agents/"
                    ++ agent_id ++ "/prompt")
                 (Some body) None)]
           ∧ body !! "system_prompt"
             = if truthy system_prompt then JStr <$> system_prompt else None).
Proof.
  repeat apply conj.
  - intros swarm_id task context agents. repeat apply conj.
    + intros Hf. unfold orchestrate. by rewrite set_if_truthy_falsy.
    + intros Hf. unfold orchestrate. by rewrite py_or_falsy.
    + eexists. split; [one_call|].
      by apply lookup_set_if_truthy.
  - intros swarm_id task context. eexists. split; [one_call|done].
  - intros swarm_id project_id. repeat apply conj.
    + intros Hf. unfold get_metrics. by rewrite (set_if_truthy_falsy _ swarm_id).
    + intros Hf. unfold get_metrics.
      by rewrite (set_if_truthy_falsy _ project_id).
    + eexists. split; [one_call|]. split.
      * unfold set_if_truthy at 1.
        destruct project_id as [p|]; [destruct (truthy p)|].
        1: rewrite lookup_insert_ne by done.
        all: by apply lookup_set_if_truthy.
      * by apply lookup_set_if_truthy, lookup_set_if_truthy_None.
  - one_call.
  - intros swarm_id agent_id prompt system_prompt. split.
    + intros Hf. unfold set_agent_prompt. by rewrite set_if_truthy_falsy.
    + eexists. split; [one_call|].
      by apply lookup_set_if_truthy.
Qed.

(** C9. The body of [start_swarm] always has the four keys
    "project_id", "agents", "objective" and "config", the body of
    [create_agent] the five keys "name", "type", "capabilities",
    "prompt" and "config"; "config" is the empty object when the
    argument is [None], and so is "context" in [orchestrate]. *)
Theorem request_bodies_are_complete h :
  (∀ project_id agents objective config,
     ∃ body : dict,
       dispatched_by
         (start_swarm client_call project_id agents objective config) h
       = [(client (this h),
           mkCall POST (base_path (this h) ++ "/start") (Some body) None)]
       ∧ dom body = {[ "project_id"; "agents"; "objective"; "config" ]}
       ∧ body !! "config" = Some (JDict (py_or config ∅)))
  ∧ (∀ project_id agents objective,
       ∃ body : dict,
         dispatched_by
           (start_swarm client_call project_id agents objective None) h
         = [(client (this h),
             mkCall POST (base_path (this h) ++ "/start") (Some body) None)]
         ∧ body !! "config" = Some (JDict ∅))
  ∧ (∀ name agent_type capabilities prompt config,
       ∃ body : dict,
         dispatched_by
           (create_agent client_call name agent_type capabilities prompt
              config) h
         = [(client (this h),
             mkCall POST (base_path (this h) ++ "/agents") (Some body) None)]
         ∧ dom body
           = {[ "name"; "type"; "capabilities"; "prompt"; "config" ]}
         ∧ body !! "config" = Some (JDict (py_or config ∅)))
  ∧ (∀ name agent_type capabilities prompt,
       ∃ body : dict,
         dispatched_by
           (create_agent client_call name agent_type capabilities prompt
              None) h
         = [(client (this h),
             mkCall POST (base_path (this h) ++ "/agents") (Some body) None)]
         ∧ body !! "config" = Some (JDict ∅))
  ∧ (∀ swarm_id task agents,
       ∃ body : dict,
         dispatched_by
           (orchestrate client_call swarm_id task None agents) h
         = [(client (this h),
             mkCall POST (base_path (this h) ++ "/orchestrate")
                    (Some body) None)]
         ∧ body !! "context" = Some (JDict ∅)).
Proof.
  repeat apply conj; intros; eexists; (split; [one_call|]).
  - split; [|done]. rewrite !dom_insert_L, dom_singleton_L. set_solver.
  - done.
  - split; [|done]. rewrite !dom_insert_L, dom_singleton_L. set_solver.
  - done.
  - unfold set_if_truthy. destruct agents as [l|]; [destruct (truthy l)|];
      by simplify_map_eq.
Qed.

(** C10. The "type" field of the body [create_agent] sends is
    [agent_type.value], one of the eight strings of [AgentType]. *)
Theorem create_agent_type_field h name agent_type capabilities prompt config :
  ∃ body : dict,
    dispatched_by
      (create_agent client_call name agent_type capabilities prompt config) h
    = [(client (this h),
        mkCall POST (base_path (this h) ++ "/agents") (Some body) None)]
    ∧ body !! "type" = Some (JStr (AgentType_value agent_type))
    ∧ AgentType_value agent_type
      ∈ [ "researcher"; "coder"; "reviewer"; "tester";
          "documenter"; "analyst"; "designer"; "orchestrator" ].
Proof.
  eexists. split; [one_call|]. split; [done|].
  destruct agent_type; cbn; set_solver.
Qed.

End AgentSwarmRequests.

Section AgentSwarmExamples.
Import AgentSwarm Fixtures.
#[local] Open Scope list_scope.

(** The requests [tests/unit/test_agent_swarm.py] expects. *)
Example test_get_status :
  dispatched_by (get_status (mock_client ∅) "swarm_123") fresh_heap
  = [(0%nat, mkCall GET "/agent-swarm/swarm_123/status" None None)].
Proof. reflexivity. Qed.

Example test_orchestrate_basic :
  dispatched_by
    (orchestrate (mock_client ∅) "swarm_123" "Implement user authentication"
       None None) fresh_heap
  = [(0%nat,
      mkCall POST "/agent-swarm/orchestrate"
        (Some {[ "swarm_id" := JStr "swarm_123";
                 "task" := JStr "Implement user authentication";
                 "context" := JDict ∅ ]})
        None)].
Proof. reflexivity. Qed.

Example test_configure_agent :
  dispatched_by
    (configure_agent (mock_client ∅) "swarm_123" "coder_1"
       {[ "max_tokens" := JInt 2500; "temperature" := JFloat 0.8 ]})
    fresh_heap
  = [(0%nat,
      mkCall PUT "/agent-swarm/swarm_123/agents/coder_1/config"
        (Some {[ "max_tokens" := JInt 2500; "temperature" := JFloat 0.8 ]})
        None)].
Proof. reflexivity. Qed.

Example test_get_swarm_history_empty :
  fst (get_swarm_history (mock_client ∅) "swarm_789" 100 fresh_heap)
  = Returned (JList []).
Proof. reflexivity. Qed.

Example test_create_agent :
  ∃ body : dict,
    dispatched_by
      (create_agent (mock_client ∅) "API Security Specialist" REVIEWER
         ["security_audit"; "penetration_testing"]
         "Focus on API security vulnerabilities" None) fresh_heap
    = [(0%nat, mkCall POST "/agent-swarm/agents" (Some body) None)]
    ∧ body !! "type" = Some (JStr "reviewer")
    ∧ body !! "config" = Some (JDict ∅)
    ∧ body !! "capabilities"
      = Some (JList [JStr "security_audit"; JStr "penetration_testing"]).
Proof. eexists. split; [reflexivity|]. by vm_compute. Qed.

Lemma envelope_unwrapping_witness :
  (∀ rq, fst (mock_client types_envelope (client (this fresh_heap)) rq
                (world fresh_heap)) = Returned types_envelope)
  ∧ fst (get_agent_types (mock_client types_envelope) fresh_heap)
    = Returned (JList [JStr "researcher"; JStr "coder"])
  ∧ fst (get_swarm_history (mock_client types_envelope) "swarm_789" 100
           fresh_heap)
    = Returned (JList []).
Proof.
  split; [intros; reflexivity|].
  destruct (envelope_unwrapping (mock_client types_envelope) fresh_heap
              types_envelope (λ _, eq_refl)) as (Ht & Hh & _).
  split; [exact Ht | exact (Hh "swarm_789" 100)].
Defined.

Lemma falsy_optional_arguments_witness :
  truthy (Some ([] : list string)) = false
  ∧ orchestrate (mock_client ∅) "swarm_123" "task" None (Some []) fresh_heap
    = orchestrate (mock_client ∅) "swarm_123" "task" None None fresh_heap.
Proof.
  split; [reflexivity|].
  destruct (falsy_optional_arguments_are_omitted (mock_client ∅) fresh_heap)
    as (Ho & _).
  destruct (Ho "swarm_123" "task" None (Some [])) as (Hf & _ & _).
  exact (Hf eq_refl).
Defined.

End AgentSwarmExamples.

(* ===================================================================== *)
(** * Properties of the request layer *)
(* ===================================================================== *)

Section ClientFacts.
Import Exceptions Auth Client.
#[local] Open Scope list_scope.
#[local] Open Scope nat_scope.

Variable transport : nat → HttpRequest → Attempted.

Implicit Types (cfg : ClientConfig) (rq : HttpRequest) (log : list Event).

Lemma attempts_app log1 log2 :
  attempts (log1 ++ log2) = attempts log1 ++ attempts log2.
Proof. apply omap_app. Qed.

Lemma sleeps_app log1 log2 :
  sleeps (log1 ++ log2) = sleeps log1 ++ sleeps log2.
Proof. apply omap_app. Qed.

Lemma attempts_retries cfg rq k a :
  attempts (retries_from cfg rq a k) = replicate k rq.
Proof.
  revert a. induction k as [|k IH]; intros a; [done|].
  cbn. by rewrite IH.
Qed.

Lemma sleeps_retries cfg rq k a :
  sleeps (retries_from cfg rq a k) = backoff cfg <$> seq a k.
Proof.
  revert a. induction k as [|k IH]; intros a; [done|].
  cbn. by rewrite IH.
Qed.

Lemma network_error_class a : exn_class (network_error_of a) = NetworkError.
Proof. by destruct a. Qed.

(** [k] transient failures in a row, none of them the last attempt, take
    the loop [k] iterations further, and each is followed by its sleep. *)
Lemma retry_loop_failures cfg rq k :
  ∀ remaining attempt last log,
    attempt + remaining = max_retries cfg →
    k < remaining →
    (∀ i, i < k →
          transient (transport (length (attempts log) + i) rq) = true) →
    ∃ last',
      retry_loop transport cfg rq remaining attempt last log
      = retry_loop transport cfg rq (remaining - k) (attempt + k) last'
          (log ++ retries_from cfg rq attempt k)
      ∧ (k = 0 → last' = last)
      ∧ (0 < k → ∃ e, last' = Some e ∧ exn_class e = NetworkError).
Proof.
  induction k as [|k IH]; intros remaining attempt last log Hsum Hk Hfail.
  - exists last. rewrite Nat.sub_0_r, Nat.add_0_r, app_nil_r.
    split; [done|]. split; [done|lia].
  - destruct remaining as [|remaining]; [lia|].
    pose proof (Hfail 0 ltac:(lia)) as H0. rewrite Nat.add_0_r in H0.
    assert (Hsleep : (S attempt <? max_retries cfg) = true)
      by (apply Nat.ltb_lt; lia).
    destruct (IH remaining (S attempt)
                (Some (network_error_of (transport (length (attempts log)) rq)))
                ((log ++ [Attempt rq]) ++ [Sleep (backoff cfg attempt)]))
      as (last' & Heq & Hlast0 & Hlast).
    + lia.
    + lia.
    + intros i Hi. rewrite !attempts_app, !length_app. cbn.
      replace (length (attempts log) + 1 + 0 + i)
        with (length (attempts log) + S i) by lia.
      apply Hfail. lia.
    + exists last'. split; [|split; [lia|]].
      * cbn [retry_loop]. rewrite Hsleep.
        destruct (transport (length (attempts log)) rq) eqn:Ht; [| |done].
        all: rewrite Heq; cbn [retries_from Nat.sub].
        all: rewrite <- !app_assoc; cbn.
        all: by rewrite Nat.add_succ_r.
      * intros _. destruct k as [|k].
        -- exists (network_error_of (transport (length (attempts log)) rq)).
           split; [by apply Hlast0|apply network_error_class].
        -- apply Hlast. lia.
Qed.
(** A response at attempt [k], after [k] transient failures, ends the
    loop with the outcome of that response. *)
Lemma retry_loop_responded cfg rq k r remaining attempt last log :
  attempt + remaining = max_retries cfg →
  k < remaining →
  (∀ i, i < k →
        transient (transport (length (attempts log) + i) rq) = true) →
  transport (length (attempts log) + k) rq = Responded r →
  retry_loop transport cfg rq remaining attempt last log
  = (handle_response r,
     log ++ retries_from cfg rq attempt k ++ [Attempt rq]).
Proof.
  intros Hsum Hk Hfail Hr.
  destruct (retry_loop_failures cfg rq k remaining attempt last log)
    as (last' & -> & _); [done..|].
  destruct (remaining - k) as [|rest] eqn:Hrest; [lia|].
  cbn [retry_loop].
  rewrite attempts_app, length_app, attempts_retries, length_replicate, Hr.
  by rewrite <- app_assoc.
Qed.

(** When every attempt fails the loop runs [max_retries] attempts, sleeps
    between them and raises the [NetworkError] of the last one. *)
Lemma retry_loop_exhausted cfg rq log :
  (∀ i, i < max_retries cfg →
        transient (transport (length (attempts log) + i) rq) = true) →
  ∃ e,
    retry_loop transport cfg rq (max_retries cfg) 0 None log
    = (Raised (SDKError e),
       log ++ match max_retries cfg with
              | O => []
              | S m => retries_from cfg rq 0 m ++ [Attempt rq]
              end)
    ∧ exn_class e = NetworkError.
Proof.
  intros Hfail. destruct (max_retries cfg) as [|m] eqn:Hm.
  - eexists. split; [by rewrite app_nil_r|done].
  - destruct (retry_loop_failures cfg rq m (S m) 0 None log)
      as (last' & -> & _); [lia | lia | intros; apply Hfail; lia |].
    replace (S m - m) with 1 by lia.
    cbn [retry_loop].
    rewrite attempts_app, length_app, attempts_retries, length_replicate.
    pose proof (Hfail m ltac:(lia)) as Hlast.
    rewrite Hm, Nat.ltb_irrefl.
    destruct (transport (length (attempts log) + m) rq) eqn:Ht; [| |done].
    all: eexists; split; [by rewrite <- app_assoc|done].
Qed.

(** Every attempt of one run of the loop carries the request the loop
    was given, and a loop with an iteration to run makes an attempt. *)
Lemma retry_loop_attempts cfg rq :
  ∀ remaining attempt last log,
    ∃ j,
      attempts (snd (retry_loop transport cfg rq remaining attempt last log))
      = attempts log ++ replicate j rq
      ∧ (0 < remaining → 0 < j).
Proof.
  induction remaining as [|remaining IH]; intros attempt last log.
  - exists 0. cbn. rewrite app_nil_r. split; [done|lia].
  - cbn [retry_loop].
    destruct (transport (length (attempts log)) rq) eqn:Ht.
    3: { exists 1. cbn. rewrite attempts_app. split; [done|lia]. }
    all: edestruct IH as (j & -> & _).
    all: exists (S j).
    all: destruct (S attempt <? max_retries cfg).
    all: rewrite ?attempts_app; cbn.
    all: rewrite ?app_nil_r, <- ?app_assoc.
    all: split; [done|lia].
Qed.

Lemma compose_headers_configured (self : AINativeClient) now custom :
  is_configured (auth_config self) = true →
  ∃ hs, compose_headers self now custom = Returned hs.
Proof.
  unfold is_configured, compose_headers, get_headers.
  destruct (api_key (auth_config self)) as [key|]; [|done].
  cbn. intros ->.
  destruct (api_secret (auth_config self)) as [secret|];
    [destruct (truthy secret)|];
    destruct custom; eauto.
Qed.

(** C1. When every underlying attempt of a request raises a transient
    network failure, the client makes exactly [max_retries] attempts,
    sleeps between consecutive attempts and then raises [NetworkError];
    when an attempt before the limit succeeds, the request returns the
    parsed JSON of that response and makes no further attempt. *)
Theorem bounded_retry (self : AINativeClient) now meth endpoint data params
    custom log :
  is_configured (auth_config self) = true →
  let cfg := config self in
  let n0 := length (attempts log) in
  let out := request transport self now meth endpoint data params custom log in
  ((∀ i rq, i < max_retries cfg → transient (transport (n0 + i) rq) = true) →
   ∃ e rq,
     fst out = Raised (SDKError e)
     ∧ exn_class e = NetworkError
     ∧ snd out = log ++ match max_retries cfg with
                        | O => []
                        | S m => retries_from cfg rq 0 m ++ [Attempt rq]
                        end
     ∧ length (attempts (snd out)) = n0 + max_retries cfg
     ∧ length (sleeps (snd out)) = length (sleeps log) + (max_retries cfg - 1))
  ∧ (∀ k r,
       k < max_retries cfg →
       (∀ i rq, i < k → transient (transport (n0 + i) rq) = true) →
       (∀ rq, transport (n0 + k) rq = Responded r) →
       success_status (resp_status r) = true →
       ∃ rq,
         fst out = Returned (if truthy (resp_text r) then resp_json r else ∅)
         ∧ snd out = log ++ retries_from cfg rq 0 k ++ [Attempt rq]
         ∧ length (attempts (snd out)) = n0 + k + 1
         ∧ length (sleeps (snd out)) = length (sleeps log) + k).
Proof.
  intros Hconf cfg n0 out.
  destruct (compose_headers_configured self now custom Hconf) as [hs Hhs].
  subst out. unfold request. rewrite Hhs. fold cfg.
  set (rq := mkHttpRequest _ _ _ _ _).
  split.
  - intros Hfail.
    destruct (retry_loop_exhausted cfg rq log) as (e & -> & He);
      [intros; by apply Hfail|].
    exists e, rq. cbn [fst snd]. repeat split; [done|..].
    + destruct (max_retries cfg) as [|m]; rewrite ?app_nil_r; [lia|].
      rewrite !attempts_app, !length_app, attempts_retries, length_replicate.
      cbn. lia.
    + destruct (max_retries cfg) as [|m]; rewrite ?app_nil_r; [lia|].
      rewrite !sleeps_app, !length_app, sleeps_retries, length_fmap,
        length_seq.
      cbn. lia.
  - intros k r Hk Hfail Hr Hok.
    rewrite (retry_loop_responded cfg rq k r); [|done|done|eauto|eauto].
    exists rq. cbn [fst snd]. repeat split.
    + unfold handle_response. rewrite Hok.
      unfold success_status in Hok.
      replace (resp_status r =? 429)%Z with false by lia.
      by replace (resp_status r =? 401)%Z with false by lia.
    + rewrite !attempts_app, !length_app, attempts_retries, length_replicate.
      cbn. lia.
    + rewrite !sleeps_app, !length_app, sleeps_retries, length_fmap,
        length_seq.
      cbn. lia.
Qed.

Lemma class_error_code_inj c1 c2 :
  class_error_code c1 = class_error_code c2 → c1 = c2.
Proof. destruct c1, c2; cbn; congruence. Qed.

(** C2. The response status is mapped to a typed exception: 401 raises
    [AuthenticationError]; 429 raises [RateLimitError] whose
    [retry_after] is the integer value of the [Retry-After] header; any
    other non-success status raises [APIError] with the status code and
    the response body.  Each of these classes derives from
    [AINativeException] and has an error code no other class has. *)
Theorem status_to_typed_error (self : AINativeClient) now meth endpoint data
    params custom log k r :
  is_configured (auth_config self) = true →
  k < max_retries (config self) →
  (∀ i rq, i < k →
           transient (transport (length (attempts log) + i) rq) = true) →
  (∀ rq, transport (length (attempts log) + k) rq = Responded r) →
  let out :=
    fst (request transport self now meth endpoint data params custom log) in
  (resp_status r = 401%Z →
   ∃ e, out = Raised (SDKError e)
        ∧ exn_class e = AuthenticationError
        ∧ error_code e = Some "AUTH_ERROR")
  ∧ (resp_status r = 429%Z →
     ∃ e, out = Raised (SDKError e)
          ∧ exn_class e = RateLimitError
          ∧ error_code e = Some "RATE_LIMIT"
          ∧ ∀ value n,
              resp_headers r !! "Retry-After" = Some value →
              int_of_str value = Some n →
              retry_after e = Some n)
  ∧ (success_status (resp_status r) = false →
     resp_status r ≠ 401%Z → resp_status r ≠ 429%Z →
     ∃ e, out = Raised (SDKError e)
          ∧ exn_class e = APIError
          ∧ error_code e = Some "API_ERROR"
          ∧ status_code e = Some (resp_status r)
          ∧ response_body e = Some (resp_text r))
  ∧ (∀ c, c ∈ [AuthenticationError; RateLimitError; APIError] →
          issubclass c AINativeException = true
          ∧ c ≠ AINativeException
          ∧ is_Some (class_error_code c)
          ∧ ∀ c', class_error_code c' = class_error_code c → c' = c).
Proof.
  intros Hconf Hk Hfail Hr out.
  destruct (compose_headers_configured self now custom Hconf) as [hs Hhs].
  subst out. unfold request. rewrite Hhs.
  rewrite (retry_loop_responded _ _ k r); [|done|done|eauto|eauto].
  cbn [fst]. unfold handle_response. repeat apply conj.
  - intros ->. cbn. eauto.
  - intros ->. cbn. eexists. repeat split.
    intros value n -> Hn. cbn. by rewrite Hn.
  - intros H400 H401 H429.
    replace (resp_status r =? 429)%Z with false by lia.
    replace (resp_status r =? 401)%Z with false by lia.
    rewrite H400. cbn. eauto 10.
  - intros c Hc. repeat split.
    + set_unfold. by destruct Hc as [->|[->|[->|[]]]].
    + set_unfold. by destruct Hc as [->|[->|[->|[]]]].
    + set_unfold. by destruct Hc as [->|[->|[->|[]]]].
    + intros Heq. by apply class_error_code_inj.
Qed.

Lemma get_headers_configured (auth : AuthConfig) now key :
  api_key auth = Some key → truthy key = true →
  ∃ hs, get_headers auth now = Returned hs
        ∧ hs !! "X-API-Key" = Some key
        ∧ hs !! "X-SDK-Version" = Some "0.1.0"
        ∧ hs !! "X-SDK-Language" = Some "Python"
        ∧ hs !! "X-Organization-ID" = None.
Proof.
  intros Hkey Hk. unfold get_headers. rewrite Hkey, Hk.
  destruct (api_secret auth) as [secret|]; [destruct (truthy secret)|];
    eexists; (split; [done|]); by simplify_map_eq.
Qed.

(** C5. Without an API key the request raises [ValueError] and nothing
    is dispatched.  With one, every dispatched request carries
    [X-API-Key] (the configured key), [X-SDK-Version] and
    [X-SDK-Language]; [X-Organization-ID] when an organization ID is set
    on the client (as the multi-tenant authentication headers do); and
    the caller's headers, merged in without replacing any of the
    former. *)
Theorem dispatched_headers (self : AINativeClient) now meth endpoint data
    params custom log :
  let out := request transport self now meth endpoint data params custom log in
  let sent := drop (length (attempts log)) (attempts (snd out)) in
  (is_configured (auth_config self) = false →
   out = (Raised (ValueError "API key not configured"), log))
  ∧ (∀ key,
       api_key (auth_config self) = Some key → truthy key = true →
       (0 < max_retries (config self) → sent ≠ [])
       ∧ (∀ org, truthy org = true →
            ∃ hs,
              MultiTenantAuth_get_headers (auth_config self) (Some org) now
              = Returned hs
              ∧ hs !! "X-API-Key" = Some key
              ∧ hs !! "X-Organization-ID" = Some org)
       ∧ ∀ rq, rq ∈ sent →
           request_headers rq !! "X-API-Key" = Some key
           ∧ request_headers rq !! "X-SDK-Version" = Some __version__
           ∧ request_headers rq !! "X-SDK-Language" = Some "Python"
           ∧ (∀ org, organization_id self = Some org → truthy org = true →
                     request_headers rq !! "X-Organization-ID" = Some org)
           ∧ (∀ own name value,
                compose_headers self now None = Returned own →
                own !! name = Some value →
                request_headers rq !! name = Some value)
           ∧ (∀ own extra name value,
                compose_headers self now None = Returned own →
                custom = Some extra →
                extra !! name = Some value →
                own !! name = None →
                request_headers rq !! name = Some value)).
Proof.
  intros out sent. split.
  - subst out. unfold request, compose_headers, get_headers, is_configured.
    destruct (api_key (auth_config self)) as [key|]; [|done].
    cbn. by intros ->.
  - intros key Hkey Hk.
    destruct (get_headers_configured (auth_config self) now key Hkey Hk)
      as (hs & Hhs & Hk1 & Hk2 & Hk3 & Hk4).
    set (own :=
           match organization_id self with
           | Some org =>
               if truthy org then <["X-Organization-ID" := org]> hs else hs
           | None => hs
           end).
    assert (Hown : compose_headers self now None = Returned own)
      by (unfold compose_headers; by rewrite Hhs).
    set (final := match custom with Some extra => own ∪ extra | None => own end).
    assert (Hfinal : compose_headers self now custom = Returned final)
      by (unfold compose_headers; rewrite Hhs; by destruct custom).
    assert (Hkeep : ∀ name value,
               own !! name = Some value → final !! name = Some value).
    { intros name value Hv. subst final. destruct custom; [|done].
      by apply lookup_union_Some_l. }
    assert (Hbase : ∀ name value, name ≠ "X-Organization-ID" →
               hs !! name = Some value → own !! name = Some value).
    { intros name value Hne Hv. subst own.
      destruct (organization_id self) as [org|]; [destruct (truthy org)|];
        by simplify_map_eq. }
    subst sent out. unfold request. rewrite Hfinal.
    set (rq0 := mkHttpRequest _ _ _ _ _).
    destruct (retry_loop_attempts (config self) rq0
                (max_retries (config self)) 0 None log) as (j & -> & Hj).
    rewrite drop_app_length. split.
    { intros Hpos. apply Hj in Hpos. destruct j; [lia|done]. }
    split.
    { intros org Horg. unfold MultiTenantAuth_get_headers.
      rewrite Hhs, Horg. eexists. split; [done|]. by simplify_map_eq. }
    intros rq [-> _]%elem_of_replicate. cbn [request_headers rq0].
    repeat apply conj.
    + by apply Hkeep, Hbase.
    + by apply Hkeep, Hbase.
    + by apply Hkeep, Hbase.
    + intros org Horg Ht. apply Hkeep. subst own. rewrite Horg, Ht.
      by simplify_map_eq.
    + intros own' name value Hown' Hv. apply Hkeep. congruence.
    + intros own' extra name value Hown' -> Hv Hnone.
      assert (own' = own) as -> by congruence.
      subst final. by rewrite lookup_union_r.
Qed.

End ClientFacts.

(* ===================================================================== *)
(** * Properties of the authentication headers *)
(* ===================================================================== *)

Section AuthFacts.
Import Crypto Exceptions Auth.

(** The timestamp is the decimal numeral of the clock reading. *)
Lemma int_of_str_of_int (now : Z) : int_of_str (str_of_int now) = Some now.
Proof.
  unfold int_of_str, str_of_int.
  rewrite NilZero.isi.
  - cbn. by rewrite DecimalZ.of_to.
  - destruct now; cbn; [done| |done].
    intros [= H]. by apply DecimalPos.Unsigned.to_uint_nonnil in H.
  - destruct now; cbn; [done|done|].
    intros [= H]. by apply DecimalPos.Unsigned.to_uint_nonnil in H.
Qed.

(** C3. With an API secret set, the headers carry [X-Timestamp], the
    Unix time as a decimal string, and [X-Signature], the base64
    encoding of the HMAC-SHA256 digest, keyed by the secret, of the API
    key followed by the timestamp; without a secret neither header is
    present. *)
Theorem signed_headers (auth : AuthConfig) (now : Z) (key : string) :
  api_key auth = Some key →
  truthy key = true →
  (∀ secret,
     api_secret auth = Some secret → truthy secret = true →
     ∃ hs,
       get_headers auth now = Returned hs
       ∧ hs !! "X-Timestamp" = Some (str_of_int now)
       ∧ int_of_str (str_of_int now) = Some now
       ∧ hs !! "X-Signature"
         = Some (b64encode
                   (hmac_sha256 (encode secret)
                      (encode (key ++ str_of_int now)))))
  ∧ (truthy (api_secret auth) = false →
     ∃ hs,
       get_headers auth now = Returned hs
       ∧ hs !! "X-Timestamp" = None
       ∧ hs !! "X-Signature" = None).
Proof.
  intros Hkey Hk. unfold get_headers. rewrite Hkey, Hk. split.
  - intros secret -> ->. eexists. split; [done|].
    split; [by simplify_map_eq|].
    split; [apply int_of_str_of_int|].
    by simplify_map_eq.
  - destruct (api_secret auth) as [secret|]; cbn.
    + intros ->. eexists. split; [done|]. by simplify_map_eq.
    + intros _. eexists. split; [done|]. by simplify_map_eq.
Qed.

End AuthFacts.

(* ===================================================================== *)
(** * The properties at the fixtures of the test suite *)
(* ===================================================================== *)

Section ClientExamples.
Import Crypto Exceptions Auth Client Fixtures.
#[local] Open Scope list_scope.

(** The signature [tests/unit/test_auth.py] recomputes with [hmac],
    [hashlib] and [base64]. *)
Example test_generate_signature :
  _generate_signature "test-api-key-12345" "test-api-secret-67890" "1704067200"
  = "qeZx8uFh0m1rk0HjIchZ61UDDi3RrgTMUT2ONktCgQw=".
Proof. vm_compute. reflexivity. Qed.

(** SHA-256 and HMAC-SHA256 at the test vectors of FIPS 180-4 and
    RFC 4231. *)
Example sha256_abc :
  sha256 (encode "abc")
  = [186; 120; 22; 191; 143; 1; 207; 234; 65; 65; 64; 222; 93; 174; 34; 35;
     176; 3; 97; 163; 150; 23; 122; 156; 180; 16; 255; 97; 242; 0; 21; 173]%Z.
Proof. vm_compute. reflexivity. Qed.

Example hmac_sha256_rfc4231_case2 :
  b64encode (hmac_sha256 (encode "Jefe") (encode "what do ya want for nothing?"))
  = "W9zBRr9gdU5qBCQmCJV1x1oAPwidJzmDnexYuWTsOEM=".
Proof. vm_compute. reflexivity. Qed.

(** The error statuses of [tests/unit/test_client.py]. *)
Example test_api_error_400 :
  ∃ e,
    fst (request
           (answers {| resp_status := 400; resp_text := "Bad request";
                       resp_headers := ∅; resp_json := ∅ |})
           test_client mock_time "POST" "/test" None None None [])
    = Raised (SDKError e)
    ∧ exn_class e = APIError
    ∧ status_code e = Some 400%Z
    ∧ response_body e = Some "Bad request".
Proof. eexists. split; [vm_compute; reflexivity|done]. Qed.

Example test_api_error_500 :
  ∃ e,
    fst (request
           (answers {| resp_status := 500; resp_text := "Internal Server Error";
                       resp_headers := ∅; resp_json := ∅ |})
           test_client mock_time "GET" "/test" None None None [])
    = Raised (SDKError e)
    ∧ exn_class e = APIError
    ∧ status_code e = Some 500%Z.
Proof. eexists. split; [vm_compute; reflexivity|done]. Qed.

Example test_authentication_error :
  ∃ e,
    fst (request
           (answers {| resp_status := 401; resp_text := "Unauthorized";
                       resp_headers := ∅; resp_json := ∅ |})
           test_client mock_time "GET" "/test" None None None [])
    = Raised (SDKError e)
    ∧ isinstance e AuthenticationError = true
    ∧ isinstance e AINativeException = true.
Proof. eexists. split; [vm_compute; reflexivity|done]. Qed.

Example test_request_empty_response :
  fst (request
         (answers {| resp_status := 204; resp_text := EmptyString;
                     resp_headers := ∅; resp_json := ∅ |})
         test_client mock_time "DELETE" "/test" None None None [])
  = Returned ∅.
Proof. vm_compute. reflexivity. Qed.

Lemma signed_headers_witness :
  api_key test_auth = Some "test-api-key-12345"
  ∧ truthy "test-api-key-12345" = true
  ∧ ∃ hs,
      get_headers test_auth mock_time = Returned hs
      ∧ hs !! "X-Timestamp" = Some "1704067200"
      ∧ hs !! "X-Signature"
        = Some (_generate_signature "test-api-key-12345"
                  "test-api-secret-67890" "1704067200").
Proof.
  split; [reflexivity|]. split; [reflexivity|].
  destruct (signed_headers test_auth mock_time "test-api-key-12345"
              eq_refl eq_refl) as [Hsigned _].
  destruct (Hsigned "test-api-secret-67890" eq_refl eq_refl)
    as (hs & Hhs & Hts & _ & Hsig).
  exists hs. split; [exact Hhs|]. split; [exact Hts | exact Hsig].
Defined.

Lemma bounded_retry_witness :
  is_configured (auth_config test_client) = true
  ∧ max_retries default_config = 3%nat
  ∧ (let out := request network_down test_client mock_time "GET" "/test"
                  None None None [] in
     length (attempts (snd out)) = 3%nat ∧ length (sleeps (snd out)) = 2%nat)
  ∧ (let out := request recovers_on_third test_client mock_time "GET" "/test"
                  None None None [] in
     fst out = Returned {[ "success" := JBool true ]}
     ∧ length (attempts (snd out)) = 3%nat
     ∧ length (sleeps (snd out)) = 2%nat).
Proof.
  split; [reflexivity|]. split; [reflexivity|]. split.
  - destruct (bounded_retry network_down test_client mock_time "GET" "/test"
                None None None [] eq_refl) as [Hall _].
    destruct Hall as (e & rq & _ & _ & _ & Ha & Hs); [intros; reflexivity|].
    split; [exact Ha | exact Hs].
  - destruct (bounded_retry recovers_on_third test_client mock_time "GET"
                "/test" None None None [] eq_refl) as [_ Hsome].
    destruct (Hsome 2%nat (mock_response 200 {[ "success" := JBool true ]}))
      as (rq & Hout & _ & Ha & Hs).
    + cbn. lia.
    + intros i rq Hi. destruct i as [|[|i]]; [reflexivity|reflexivity|lia].
    + intros rq. reflexivity.
    + cbn. lia.
    + split; [exact Hout|]. split; [exact Ha | exact Hs].
Defined.

Lemma status_to_typed_error_witness :
  is_configured (auth_config test_client) = true
  ∧ ∃ e,
      fst (request rate_limited test_client mock_time "GET" "/test"
             None None None [])
      = Raised (SDKError e)
      ∧ exn_class e = RateLimitError
      ∧ retry_after e = Some 60.
Proof.
  split; [reflexivity|].
  destruct (status_to_typed_error rate_limited test_client mock_time "GET"
              "/test" None None None [] 0%nat
              {| resp_status := 429; resp_text := EmptyString;
                 resp_headers := {[ "Retry-After" := "60" ]};
                 resp_json := ∅ |})
    as (_ & H429 & _).
  - reflexivity.
  - cbn. lia.
  - intros i rq Hi. lia.
  - intros rq. reflexivity.
  - destruct (H429 eq_refl) as (e & Hout & Hcls & _ & Hafter).
    exists e. split; [exact Hout|]. split; [exact Hcls|].
    apply (Hafter "60"); reflexivity.
Defined.

Lemma dispatched_headers_witness :
  api_key (auth_config test_client) = Some "test-api-key-12345"
  ∧ truthy "test-api-key-12345" = true
  ∧ ∀ rq,
      rq ∈ attempts (snd (request recovers_on_third test_client mock_time
                            "GET" "/test" None None
                            (Some {[ "Custom-Header" := "value" ]}) [])) →
      request_headers rq !! "X-API-Key" = Some "test-api-key-12345"
      ∧ request_headers rq !! "Custom-Header" = Some "value".
Proof.
  split; [reflexivity|]. split; [reflexivity|].
  intros rq Hrq.
  destruct (dispatched_headers recovers_on_third test_client mock_time "GET"
              "/test" None None (Some {[ "Custom-Header" := "value" ]}) [])
    as [_ Hsent].
  destruct (Hsent "test-api-key-12345" eq_refl eq_refl) as (_ & _ & Hall).
  destruct (Hall rq Hrq) as (Hkey & _ & _ & _ & _ & Hextra).
  split; [exact Hkey|].
  eapply Hextra; [reflexivity | reflexivity | reflexivity | vm_compute; reflexivity].
Defined.

End ClientExamples.


(* ===================================================================== *)
(** * Further properties of the Agent Swarm resource methods *)
(* ===================================================================== *)

Section AgentSwarmOutcomes.
Import AgentSwarm Routes Fixtures.
#[local] Open Scope list_scope.

Context {World Exn : Type}.
Variable client_call : loc → ClientCall → World → Outcome Exn dict * World.
Implicit Types (h : Heap World) (mc : MethodCall).

Lemma append_nonempty (s t : string) :
  t ≠ EmptyString → (s ++ t)%string ≠ EmptyString.
Proof. destruct s; cbn; [done|discriminate]. Qed.

Lemma call_then c rq (post : dict → json) h :
  bind (call client_call c rq) (λ d, ret (post d)) h
  = (match fst (client_call c rq (world h)) with
     | Returned d => Returned (post d)
     | Raised e => Raised e
     end,
     snd (call client_call c rq h)).
Proof.
  unfold bind, ret, call. cbn.
  by destruct (fst (client_call c rq (world h))).
Qed.

Lemma dispatched_by_call_bind {A} c rq (k : dict → M A) h :
  (∀ d h', snd (k d h') = h') →
  dispatched_by (bind (call client_call c rq) k) h = [(c, rq)].
Proof.
  intros Hk. unfold dispatched_by, bind, call. cbn [fst snd].
  destruct (fst (client_call c rq (world h))); rewrite ?Hk; cbn;
    by rewrite drop_app_length.
Qed.

(** Every method is one call to the parent followed by a step that only
    looks at the envelope. *)
Lemma invoke_run mc h :
  ∃ (rq : ClientCall) (post : dict → json),
    invoke client_call mc h
    = (match fst (client_call (client (this h)) rq (world h)) with
       | Returned d => Returned (post d)
       | Raised e => Raised e
       end,
       snd (call client_call (client (this h)) rq h)).
Proof.
  destruct mc; do 2 eexists; (etrans; [|apply call_then]).
  all: unfold invoke, start_swarm, orchestrate, get_status, get_metrics,
    get_agent_types, configure_agent, set_agent_prompt, stop_swarm,
    pause_swarm, resume_swarm, get_swarm_history, get_agent_communications,
    create_agent, client_get, client_post, client_put.
  all: reflexivity.
Qed.

Ltac dispatch_one :=
  etrans;
  [ first
      [ eapply (dispatched_by_ext _ (call client_call _ _)); reflexivity
      | eapply (dispatched_by_ext _ (bind (call client_call _ _) _));
        reflexivity ]
  | first
      [ apply dispatched_by_call
      | apply dispatched_by_call_bind; reflexivity ] ].

(** X1. An exception the parent client raises comes out of every
    resource method as it is: nothing is caught, wrapped or retried,
    and the one call has been made. *)
Theorem method_exceptions_propagate mc h (e : Exn) :
  (∀ rq, fst (client_call (client (this h)) rq (world h)) = Raised e) →
  fst (invoke client_call mc h) = Raised e
  ∧ length (dispatched_by (invoke client_call mc) h) = 1%nat.
Proof.
  intros Hraise. destruct (invoke_run mc h) as (rq & post & Hrun).
  unfold dispatched_by. rewrite Hrun. cbn [fst snd]. rewrite Hraise.
  split; [done|]. rewrite call_dispatched, drop_app_length. done.
Qed.

(** X2. The methods that do not unwrap return the parent's envelope as
    it is, whatever it holds. *)
Theorem envelopes_pass_through h (envelope : dict) :
  (∀ rq, fst (client_call (client (this h)) rq (world h)) = Returned envelope) →
  (∀ project_id agents objective config,
     fst (start_swarm client_call project_id agents objective config h)
     = Returned envelope)
  ∧ (∀ swarm_id task context agents,
       fst (orchestrate client_call swarm_id task context agents h)
       = Returned envelope)
  ∧ (∀ swarm_id, fst (get_status client_call swarm_id h) = Returned envelope)
  ∧ (∀ swarm_id project_id,
       fst (get_metrics client_call swarm_id project_id h) = Returned envelope)
  ∧ (∀ swarm_id agent_id config,
       fst (configure_agent client_call swarm_id agent_id config h)
       = Returned envelope)
  ∧ (∀ swarm_id agent_id prompt system_prompt,
       fst (set_agent_prompt client_call swarm_id agent_id prompt
              system_prompt h)
       = Returned envelope)
  ∧ (∀ swarm_id force,
       fst (stop_swarm client_call swarm_id force h) = Returned envelope)
  ∧ (∀ swarm_id, fst (pause_swarm client_call swarm_id h) = Returned envelope)
  ∧ (∀ swarm_id, fst (resume_swarm client_call swarm_id h) = Returned envelope)
  ∧ (∀ name agent_type capabilities prompt config,
       fst (create_agent client_call name agent_type capabilities prompt
              config h)
       = Returned envelope).
Proof.
  intros Hanswer.
  repeat apply conj; intros;
    unfold start_swarm, orchestrate, get_status, get_metrics,
      configure_agent, set_agent_prompt, stop_swarm, pause_swarm,
      resume_swarm, create_agent, client_get, client_post, client_put,
      bind, self_base_path, self_client, call; cbn [fst snd];
    apply Hanswer.
Qed.

(** X3. Each method makes one call, to an endpoint under [base_path];
    the five read methods and only they use GET, and only
    [configure_agent] uses PUT; a GET never carries a body and a POST or
    PUT never carries query parameters. *)
Theorem verbs_and_endpoints mc h :
  ∃ rq rest,
    dispatched_by (invoke client_call mc) h = [(client (this h), rq)]
    ∧ endpoint rq = (base_path (this h) ++ "/" ++ rest)%string
    ∧ rest ≠ EmptyString
    ∧ (verb rq = GET ↔
       method_name mc ∈ ["get_status"; "get_metrics"; "get_agent_types";
                         "get_swarm_history"; "get_agent_communications"])
    ∧ (verb rq = PUT ↔ method_name mc = "configure_agent")
    ∧ (verb rq = GET → data rq = None)
    ∧ (verb rq ≠ GET → params rq = None).
Proof.
  destruct mc; do 2 eexists; (split; [dispatch_one|]); cbn.
  all: (split; [reflexivity|]).
  all: (split; [try apply append_nonempty; done|]).
  all: (split;
        [split; intros Hv;
           [ first [discriminate Hv | repeat constructor]
           | first [reflexivity
                   | exfalso;
                     repeat (apply elem_of_cons in Hv as [Hv|Hv];
                             [discriminate Hv|]);
                     by apply elem_of_nil in Hv] ]|]).
  all: (split; [split; intros Hv; first [reflexivity | discriminate Hv]|]).
  all: by split.
Qed.

Lemma dom_set_if_truthy {A} `{Truthy A} key (arg : option A) to_json
    (d : dict) :
  dom (set_if_truthy key arg to_json d)
  = (if truthy arg then {[ key ]} else ∅) ∪ dom d.
Proof.
  unfold set_if_truthy. destruct arg as [a|]; cbn; [destruct (truthy a)|].
  - by rewrite dom_insert_L.
  - by rewrite union_empty_l_L.
  - by rewrite union_empty_l_L.
Qed.

(** X4. The payloads hold exactly the keys of their arguments: an
    optional argument adds its key when it is truthy and no other key is
    ever sent, while a required argument is sent even when it is falsy
    (an empty prompt, a zero limit, [force=False], an empty agent
    configuration). *)
Theorem payloads_have_exact_keys h :
  (∀ swarm_id task context agents,
     ∃ body : dict,
       dispatched_by
         (orchestrate client_call swarm_id task context agents) h
       = [(client (this h),
           mkCall POST (base_path (this h) ++ "/orchestrate")
                  (Some body) None)]
       ∧ dom body
         = (if truthy agents then {[ "agents" ]} else ∅)
           ∪ {[ "swarm_id"; "task"; "context" ]})
  ∧ (∀ swarm_id project_id,
       ∃ params : dict,
         dispatched_by (get_metrics client_call swarm_id project_id) h
         = [(client (this h),
             mkCall GET (base_path (this h) ++ "/metrics")
                    None (Some params))]
         ∧ dom params
           = (if truthy project_id then {[ "project_id" ]} else ∅)
             ∪ (if truthy swarm_id then {[ "swarm_id" ]} else ∅))
  ∧ (∀ swarm_id agent_id prompt system_prompt,
       ∃ body : dict,
         dispatched_by
           (set_agent_prompt client_call swarm_id agent_id prompt
              system_prompt) h
         = [(client (this h),
             mkCall POST
               (base_path (this h) ++ "/" ++ swarm_id ++ "/agents/"
                  ++ agent_id ++ "/prompt")
               (Some body) None)]
         ∧ dom body
           = (if truthy system_prompt then {[ "system_prompt" ]} else ∅)
             ∪ {[ "prompt" ]}
         ∧ body !! "prompt" = Some (JStr prompt))
  ∧ (∀ swarm_id agent_id,
       ∃ params : dict,
         dispatched_by
           (get_agent_communications client_call swarm_id agent_id) h
         = [(client (this h),
             mkCall GET
               (base_path (this h) ++ "/" ++ swarm_id ++ "/communications")
               None (Some params))]
         ∧ dom params = (if truthy agent_id then {[ "agent_id" ]} else ∅))
  ∧ (∀ swarm_id limit,
       dispatched_by (get_swarm_history client_call swarm_id limit) h
       = [(client (this h),
           mkCall GET (base_path (this h) ++ "/" ++ swarm_id ++ "/history")
                  None (Some {[ "limit" := JInt limit ]}))])
  ∧ (∀ swarm_id force,
       dispatched_by (stop_swarm client_call swarm_id force) h
       = [(client (this h),
           mkCall POST (base_path (this h) ++ "/" ++ swarm_id ++ "/stop")
                  (Some {[ "force" := JBool force ]}) None)])
  ∧ (∀ swarm_id agent_id config,
       dispatched_by
         (configure_agent client_call swarm_id agent_id config) h
       = [(client (this h),
           mkCall PUT
             (base_path (this h) ++ "/" ++ swarm_id ++ "/agents/"
                ++ agent_id ++ "/config")
             (Some config) None)]).
Proof.
  repeat apply conj; intros.
  - eexists. split; [dispatch_one|].
    rewrite dom_set_if_truthy, !dom_insert_L, dom_singleton_L.
    destruct (truthy agents); set_solver.
  - eexists. split; [dispatch_one|].
    rewrite !dom_set_if_truthy, dom_empty_L.
    by rewrite union_empty_r_L.
  - eexists. split; [dispatch_one|]. split.
    + by rewrite dom_set_if_truthy, dom_singleton_L.
    + unfold set_if_truthy.
      destruct system_prompt as [sp|]; [destruct (truthy sp)|];
        by simplify_map_eq.
  - eexists. split; [dispatch_one|].
    rewrite dom_set_if_truthy, dom_empty_L.
    by rewrite union_empty_r_L.
  - dispatch_one.
  - dispatch_one.
  - dispatch_one.
Qed.

End AgentSwarmOutcomes.

Section AgentSwarmRoutes.
Import AgentSwarm Routes Fixtures.
#[local] Open Scope list_scope.

Lemma chars_app (s t : string) : chars (s ++ t)%string = chars s ++ chars t.
Proof.
  unfold chars. induction s as [|a s IH]; [done|].
  cbn. rewrite <- IH. reflexivity.
Qed.

Lemma chars_inj (s t : string) : chars s = chars t → s = t.
Proof.
  unfold chars. intros Heq.
  rewrite <- (String.string_of_list_ascii_of_string s),
          <- (String.string_of_list_ascii_of_string t).
  by rewrite Heq.
Qed.

Lemma append_assoc (s t u : string) :
  ((s ++ t) ++ u)%string = (s ++ t ++ u)%string.
Proof. apply chars_inj. by rewrite !chars_app, app_assoc. Qed.

Lemma append_inv_tail (s s' t : string) :
  (s ++ t)%string = (s' ++ t)%string → s = s'.
Proof.
  intros Heq%(f_equal chars). rewrite !chars_app in Heq.
  by apply app_inv_tail, chars_inj in Heq.
Qed.

Lemma append_inv_head (s t t' : string) :
  (s ++ t)%string = (s ++ t')%string → t = t'.
Proof. apply (inj (String.app s)). Qed.

(** The first occurrence of a separator splits a list in one way. *)
Lemma split_at_first {A} (x : A) (l1 l2 r1 r2 : list A) :
  x ∉ l1 → x ∉ l2 → l1 ++ x :: r1 = l2 ++ x :: r2 → l1 = l2 ∧ r1 = r2.
Proof.
  revert l2. induction l1 as [|a l1 IH]; intros [|b l2] H1 H2 Heq;
    cbn in Heq.
  - by injection Heq as ->.
  - injection Heq as -> _. destruct H2. left.
  - injection Heq as -> _. destruct H1. left.
  - injection Heq as -> Heq.
    apply IH in Heq as [-> ->]; [done| |].
    + intros Hin. apply H1. by right.
    + intros Hin. apply H2. by right.
Qed.

Context {World Exn : Type}.
Variable client_call : loc → ClientCall → World → Outcome Exn dict * World.
Implicit Types (h : Heap World) (mc : MethodCall).

Ltac dispatch_one :=
  etrans;
  [ first
      [ eapply (dispatched_by_ext _ (call client_call _ _)); reflexivity
      | eapply (dispatched_by_ext _ (bind (call client_call _ _) _));
        reflexivity ]
  | first
      [ apply dispatched_by_call
      | apply dispatched_by_call_bind; reflexivity ] ].

(** Two endpoints under the same base path that end differently are
    different. *)
Ltac endings_differ H :=
  apply append_inv_head in H;
  apply (f_equal chars) in H;
  rewrite ?chars_app in H;
  apply (f_equal reverse) in H;
  rewrite ?reverse_app in H;
  cbn in H;
  discriminate H.

(** X5. Calls of two different methods never go to the same endpoint,
    whatever their arguments. *)
Theorem routes_do_not_collide mc1 mc2 h :
  ∃ rq1 rq2,
    dispatched_by (invoke client_call mc1) h = [(client (this h), rq1)]
    ∧ dispatched_by (invoke client_call mc2) h = [(client (this h), rq2)]
    ∧ (endpoint rq1 = endpoint rq2 → method_name mc1 = method_name mc2).
Proof.
  destruct mc1, mc2; do 2 eexists.
  all: (split; [dispatch_one|]); (split; [dispatch_one|]).
  all: cbn [endpoint method_name]; intros Hep.
  all: first [reflexivity | endings_differ Hep].
Qed.

Lemma dispatched_same_endpoint {A B} (m1 : @M World Exn A)
    (m2 : @M World Exn B) h c1 c2 rq1 rq2 :
  dispatched_by m1 h = [(c1, rq1)] →
  dispatched_by m2 h = [(c2, rq2)] →
  dispatched_by m1 h = dispatched_by m2 h →
  rq1 = rq2.
Proof. intros -> -> [= _ ->]. done. Qed.

(** X6. Identifiers go into the path as they are.  The single-identifier
    endpoints determine their swarm; the two-identifier endpoints of
    [configure_agent] and [set_agent_prompt] determine the swarm and the
    agent provided the swarm identifiers contain no slash; with a slash
    in the swarm identifier two different (swarm, agent) pairs share an
    endpoint. *)
Theorem identifiers_in_paths h :
  (∀ s s',
     dispatched_by (get_status client_call s) h
     = dispatched_by (get_status client_call s') h →
     s = s')
  ∧ (∀ s s',
       dispatched_by (pause_swarm client_call s) h
       = dispatched_by (pause_swarm client_call s') h →
       s = s')
  ∧ (∀ s s',
       dispatched_by (resume_swarm client_call s) h
       = dispatched_by (resume_swarm client_call s') h →
       s = s')
  ∧ (∀ s s' force force',
       dispatched_by (stop_swarm client_call s force) h
       = dispatched_by (stop_swarm client_call s' force') h →
       s = s' ∧ force = force')
  ∧ (∀ s a config s' a' config',
       slash_free s → slash_free s' →
       dispatched_by (configure_agent client_call s a config) h
       = dispatched_by (configure_agent client_call s' a' config') h →
       s = s' ∧ a = a' ∧ config = config')
  ∧ (∀ s a p sp s' a' p' sp',
       slash_free s → slash_free s' →
       dispatched_by (set_agent_prompt client_call s a p sp) h
       = dispatched_by (set_agent_prompt client_call s' a' p' sp') h →
       s = s' ∧ a = a' ∧ p = p')
  ∧ (∀ a b c config,
       dispatched_by
         (configure_agent client_call (a ++ "/agents/" ++ b) c config) h
       = dispatched_by
           (configure_agent client_call a (b ++ "/agents/" ++ c) config) h).
Proof.
  repeat apply conj.
  - intros s s' Heq.
    eapply dispatched_same_endpoint in Heq; [|dispatch_one..].
    apply (f_equal endpoint) in Heq. cbn in Heq.
    by apply append_inv_head, append_inv_head, append_inv_tail in Heq.
  - intros s s' Heq.
    eapply dispatched_same_endpoint in Heq; [|dispatch_one..].
    apply (f_equal endpoint) in Heq. cbn in Heq.
    by apply append_inv_head, append_inv_head, append_inv_tail in Heq.
  - intros s s' Heq.
    eapply dispatched_same_endpoint in Heq; [|dispatch_one..].
    apply (f_equal endpoint) in Heq. cbn in Heq.
    by apply append_inv_head, append_inv_head, append_inv_tail in Heq.
  - intros s s' force force' Heq.
    eapply dispatched_same_endpoint in Heq; [|dispatch_one..].
    pose proof (f_equal data Heq) as Hbody.
    apply (f_equal endpoint) in Heq. cbn in Heq, Hbody.
    apply (inj Some) in Hbody.
    apply append_inv_head, append_inv_head, append_inv_tail in Heq.
    split; [done|].
    apply (f_equal (lookup "force")) in Hbody.
    rewrite !lookup_singleton_eq in Hbody. congruence.
  - intros s a config s' a' config' Hs Hs' Heq.
    eapply dispatched_same_endpoint in Heq; [|dispatch_one..].
    pose proof (f_equal data Heq) as Hbody.
    apply (f_equal endpoint) in Heq. cbn in Heq, Hbody.
    apply (inj Some) in Hbody.
    apply append_inv_head, append_inv_head in Heq.
    apply (f_equal chars) in Heq. rewrite !chars_app in Heq. cbn in Heq.
    apply split_at_first in Heq as [Hs1 Heq]; [|done..].
    apply chars_inj in Hs1 as ->.
    apply (app_inv_head (chars "agents/")) in Heq.
    apply app_inv_tail, chars_inj in Heq as ->.
    done.
  - intros s a p sp s' a' p' sp' Hs Hs' Heq.
    eapply dispatched_same_endpoint in Heq; [|dispatch_one..].
    pose proof (f_equal data Heq) as Hbody.
    apply (f_equal endpoint) in Heq. cbn in Heq, Hbody.
    apply (inj Some) in Hbody.
    apply append_inv_head, append_inv_head in Heq.
    apply (f_equal chars) in Heq. rewrite !chars_app in Heq. cbn in Heq.
    apply split_at_first in Heq as [Hs1 Heq]; [|done..].
    apply chars_inj in Hs1 as ->.
    apply (app_inv_head (chars "agents/")) in Heq.
    apply app_inv_tail, chars_inj in Heq as ->.
    split; [done|]. split; [done|].
    apply (f_equal (lookup "prompt")) in Hbody.
    assert (Hp : ∀ q (o : option string),
               set_if_truthy "system_prompt" o JStr {[ "prompt" := JStr q ]}
                 !! "prompt" = Some (JStr q)).
    { intros q o. unfold set_if_truthy.
      destruct o as [x|]; [destruct (truthy x)|]; by simplify_map_eq. }
    rewrite !Hp in Hbody. congruence.
  - intros a b c config.
    etrans; [dispatch_one|]. symmetry. etrans; [dispatch_one|].
    do 3 f_equal.
    by rewrite !append_assoc.
Qed.

Lemma jstrs_inj (l l' : list string) : jstrs l = jstrs l' → l = l'.
Proof.
  unfold jstrs. intros Heq. assert (Hl : JStr <$> l = JStr <$> l') by congruence.
  clear Heq. revert l' Hl.
  induction l as [|x l IH]; intros [|y l'] Hl; cbn in Hl; try done.
  injection Hl as -> Hl. by rewrite (IH l').
Qed.

(** X7. Nothing is lost when [create_agent] marshals its arguments,
    except that a missing configuration and an empty one are sent alike:
    the enum values tell the members apart, and two calls that dispatch
    the same request have the same name, type, capabilities and prompt
    and configurations that agree once [None] is read as empty. *)
Theorem create_agent_marshaling h :
  (∀ t t', AgentType_value t = AgentType_value t' → t = t')
  ∧ (∀ s s', SwarmStatus_value s = SwarmStatus_value s' → s = s')
  ∧ (∀ name t caps prompt cfg name' t' caps' prompt' cfg',
       dispatched_by (create_agent client_call name t caps prompt cfg) h
       = dispatched_by
           (create_agent client_call name' t' caps' prompt' cfg') h →
       name = name' ∧ t = t' ∧ caps = caps' ∧ prompt = prompt'
       ∧ py_or cfg ∅ = py_or cfg' ∅)
  ∧ (∀ name t caps prompt,
       dispatched_by (create_agent client_call name t caps prompt None) h
       = dispatched_by
           (create_agent client_call name t caps prompt (Some ∅)) h).
Proof.
  assert (Hinj : ∀ t t', AgentType_value t = AgentType_value t' → t = t')
    by (intros [] []; cbn; congruence).
  repeat apply conj; [done|..].
  - intros [] []; cbn; congruence.
  - intros name t caps prompt cfg name' t' caps' prompt' cfg' Heq.
    eapply dispatched_same_endpoint in Heq; [|dispatch_one..].
    apply (f_equal data) in Heq. cbn in Heq. apply (inj Some) in Heq.
    pose proof (f_equal (lookup "name") Heq) as Hn.
    pose proof (f_equal (lookup "type") Heq) as Ht.
    pose proof (f_equal (lookup "capabilities") Heq) as Hc.
    pose proof (f_equal (lookup "prompt") Heq) as Hp.
    pose proof (f_equal (lookup "config") Heq) as Hcfg.
    clear Heq. simplify_map_eq.
    repeat split; [by apply Hinj| |done].
    apply jstrs_inj. unfold jstrs. by f_equal.
  - intros. done.
Qed.

End AgentSwarmRoutes.

(* ===================================================================== *)
(** * Properties of the environment fixture *)
(* ===================================================================== *)

Section ConftestFacts.
Import Conftest.
#[local] Open Scope list_scope.

Implicit Types (env : environ) (test : environ → environ).

Lemma delete_if_present env var :
  (if decide (is_Some (env !! var)) then delete var env else env)
  = delete var env.
Proof.
  case_decide as Hvar; [done|].
  symmetry. apply delete_id. by apply eq_None_not_Some.
Qed.

Lemma reset_environment_setup_eq env :
  reset_environment_setup env
  = ([ ("AINATIVE_API_KEY", env !! "AINATIVE_API_KEY");
       ("AINATIVE_API_SECRET", env !! "AINATIVE_API_SECRET");
       ("AINATIVE_ORG_ID", env !! "AINATIVE_ORG_ID") ],
     delete "AINATIVE_ORG_ID"
       (delete "AINATIVE_API_SECRET" (delete "AINATIVE_API_KEY" env))).
Proof.
  unfold reset_environment_setup, env_vars. cbn [foldl fst snd].
  rewrite !delete_if_present.
  rewrite !lookup_delete_ne by done.
  reflexivity.
Qed.

Lemma elem_of_env_vars v :
  v ∈ env_vars ↔
  v = "AINATIVE_API_KEY" ∨ v = "AINATIVE_API_SECRET" ∨ v = "AINATIVE_ORG_ID".
Proof. unfold env_vars. set_unfold. tauto. Qed.

(** X8. The set-up of [reset_environment] removes the three SDK
    variables, leaves every other variable as it was, and saves the
    value each of the three had ([None] when it was not set). *)
Theorem reset_environment_setup_clears env :
  fst (reset_environment_setup env) = (λ v, (v, env !! v)) <$> env_vars
  ∧ (∀ v, v ∈ env_vars → snd (reset_environment_setup env) !! v = None)
  ∧ (∀ v, v ∉ env_vars → snd (reset_environment_setup env) !! v = env !! v).
Proof.
  rewrite reset_environment_setup_eq. cbn [fst snd]. repeat apply conj.
  - reflexivity.
  - intros v [-> | [-> | ->]]%elem_of_env_vars; by simplify_map_eq.
  - intros v Hv. rewrite elem_of_env_vars in Hv.
    rewrite !lookup_delete_ne; [done|intros <-; tauto..].
Qed.

(** X9. After the tear-down each of the three variables that was set
    before the test has its old value again, whatever the test did to
    it.  A variable of the three that was not set before is left as the
    test left it (a value the test gave it stays), and so is every other
    variable. *)
Theorem reset_environment_outcome test env :
  let during := test (snd (reset_environment_setup env)) in
  let after := reset_environment test env in
  (∀ v value, v ∈ env_vars → env !! v = Some value →
              after !! v = Some value)
  ∧ (∀ v, v ∈ env_vars → env !! v = None → after !! v = during !! v)
  ∧ (∀ v, v ∉ env_vars → after !! v = during !! v).
Proof.
  unfold reset_environment. rewrite reset_environment_setup_eq.
  cbn [fst snd]. unfold reset_environment_teardown. cbn [foldl fst snd].
  set (during := test _). clearbody during.
  repeat apply conj.
  - intros v value [-> | [-> | ->]]%elem_of_env_vars Hv; rewrite Hv;
      destruct (env !! "AINATIVE_API_KEY"),
               (env !! "AINATIVE_API_SECRET"),
               (env !! "AINATIVE_ORG_ID"); by simplify_map_eq.
  - intros v [-> | [-> | ->]]%elem_of_env_vars Hv; rewrite Hv;
      destruct (env !! "AINATIVE_API_KEY"),
               (env !! "AINATIVE_API_SECRET"),
               (env !! "AINATIVE_ORG_ID"); by simplify_map_eq.
  - intros v Hv. rewrite elem_of_env_vars in Hv.
    destruct (env !! "AINATIVE_API_KEY"),
             (env !! "AINATIVE_API_SECRET"),
             (env !! "AINATIVE_ORG_ID");
      rewrite ?lookup_insert_ne; try done; intros <-; tauto.
Qed.

(** X10. Around a test that leaves the environment alone the fixture is
    the identity: the environment after the tear-down is the one before
    the set-up. *)
Theorem reset_environment_round_trip test env :
  test (snd (reset_environment_setup env)) = snd (reset_environment_setup env) →
  reset_environment test env = env.
Proof.
  unfold reset_environment. rewrite reset_environment_setup_eq.
  cbn [fst snd]. intros ->.
  unfold reset_environment_teardown. cbn [foldl fst snd].
  apply map_eq. intros v.
  destruct (env !! "AINATIVE_API_KEY") eqn:Hkey,
           (env !! "AINATIVE_API_SECRET") eqn:Hsecret,
           (env !! "AINATIVE_ORG_ID") eqn:Horg;
    (destruct (decide (v = "AINATIVE_API_KEY")) as [->|?];
       [|destruct (decide (v = "AINATIVE_API_SECRET")) as [->|?];
           [|destruct (decide (v = "AINATIVE_ORG_ID")) as [->|?]]]);
    by simplify_map_eq.
Qed.

End ConftestFacts.

(* ===================================================================== *)
(** * Properties of the test runner *)
(* ===================================================================== *)

Section RunTestsFacts.
Import RunTests.
#[local] Open Scope list_scope.

(** X11. The pytest command is, in this order: [python -m pytest], one
    verbosity flag, the five coverage options exactly when coverage is
    not switched off, one test path, [-m] with the marker expression
    exactly when there is a marker condition, and the three fixed
    options; nothing else.  So it names exactly one test path, and
    [--unit-only] takes precedence: with it [--integration-only]
    changes nothing.  [-m] is passed exactly when [--fast] is given or
    the integration tests are selected, the "integration" marker only
    together with the integration path, and no part other than the five
    coverage options starts with [--cov]. *)
Theorem pytest_command_shape (args : Args) :
  let verbosity := if verbose args then "-v" else "-q" in
  let coverage :=
    if no_coverage args then []
    else [ "--cov=ainative"; "--cov-report=term-missing";
           "--cov-report=html:htmlcov"; "--cov-report=xml:coverage.xml";
           "--cov-fail-under=90" ] in
  let path := if unit_only args then "tests/unit/"
              else if integration_only args then "tests/integration/"
              else "tests/" in
  let conditions :=
    (if fast args then [ "not slow" ] else [])
    ++ (if negb (unit_only args) && integration_only args
        then [ "integration" ] else []) in
  let markers :=
    if truthy conditions then [ "-m"; join " and " conditions ] else [] in
  pytest_cmd_parts args
  = [ "python"; "-m"; "pytest"; verbosity ] ++ coverage ++ [ path ]
    ++ markers ++ [ "--tb=short"; "--strict-markers"; "--durations=10" ]
  ∧ [ "python"; "-m"; "pytest"; verbosity ]
    `prefix_of` pytest_cmd_parts args
  ∧ [ "--tb=short"; "--strict-markers"; "--durations=10" ]
    `suffix_of` pytest_cmd_parts args
  ∧ filter (λ p, p ∈ [ "tests/unit/"; "tests/integration/"; "tests/" ])
      (pytest_cmd_parts args)
    = [ path ]
  ∧ (unit_only args = true →
     ∀ b, pytest_cmd_parts
            (mkArgs true b (no_coverage args) (verbose args) (fast args))
          = pytest_cmd_parts args)
  ∧ filter (λ p, p ∈ [ "-m" ]) (drop 3 (pytest_cmd_parts args))
    = (if truthy conditions then [ "-m" ] else [])
  ∧ (truthy conditions = true →
     join " and " conditions ∈ pytest_cmd_parts args
     ∧ join " and " conditions ≠ EmptyString)
  ∧ filter (λ p, String.prefix "--cov" p) (pytest_cmd_parts args) = coverage
  ∧ ("--cov-fail-under=90" ∈ pytest_cmd_parts args ↔ no_coverage args = false)
  ∧ ("--cov=ainative" ∈ pytest_cmd_parts args ↔ no_coverage args = false).
Proof.
  destruct args as [[] [] [] [] []]; cbn -[elem_of filter prefix suffix].
  all: (split; [reflexivity|]).
  all: repeat apply conj.
  all: try (apply (bool_decide_unpack _); by vm_compute).
  all: try (vm_compute; reflexivity).
  all: try (intros _ []; reflexivity).
  all: try discriminate.
  all: intros _; split; apply (bool_decide_unpack _); by vm_compute.
Qed.

(** X12. The command line is the parts joined by blanks, and the shell
    splits it at blanks again.  Without [--fast] the shell gets back the
    parts; with it the marker expression "not slow" arrives as the two
    words "not" and "slow", so pytest is given the marker expression
    "not" and a further argument. *)
Theorem marker_expression_is_split (args : Args) :
  (fast args = false →
   shell_words (pytest_cmd args) = pytest_cmd_parts args)
  ∧ (fast args = true →
     let expression :=
       if negb (unit_only args) && integration_only args
       then "not slow and integration" else "not slow" in
     expression ∈ pytest_cmd_parts args
     ∧ (expression ∉ shell_words (pytest_cmd args))
     ∧ (length (pytest_cmd_parts args)
        < length (shell_words (pytest_cmd args)))%nat
     ∧ ∃ i, (shell_words (pytest_cmd args) !! i = Some "-m")
            ∧ (shell_words (pytest_cmd args) !! S i = Some "not")
            ∧ (shell_words (pytest_cmd args) !! S (S i) = Some "slow")).
Proof.
  destruct args as [[] [] [] [] []]; split; intros Hfast;
    try discriminate Hfast; clear Hfast.
  all: try (vm_compute; reflexivity).
  all: cbn [negb andb unit_only integration_only].
  all: split; [apply (bool_decide_unpack _); by vm_compute|].
  all: split; [apply (bool_decide_unpack _); by vm_compute|].
  all: split; [apply (bool_decide_unpack _); by vm_compute|].
  all: first [ exists 5%nat; by vm_compute | exists 10%nat; by vm_compute ].
Qed.

Section Runner.

Variables (project_dir sys_version : string).
Variable subprocess_run : string → World → CompletedProcess.


Lemma ran_print line w : ran (print line w) = ran w.
Proof. reflexivity. Qed.

Lemma cwd_print line w : cwd (print line w) = cwd w.
Proof. reflexivity. Qed.

Lemma ran_print_all lines w : ran (print_all lines w) = ran w.
Proof.
  unfold print_all. revert w.
  induction lines as [|l lines IH]; intros w; [done|].
  cbn. by rewrite IH.
Qed.

Lemma cwd_print_all lines w : cwd (print_all lines w) = cwd w.
Proof.
  unfold print_all. revert w.
  induction lines as [|l lines IH]; intros w; [done|].
  cbn. by rewrite IH.
Qed.

Lemma printed_print_all lines w :
  printed (print_all lines w) = printed w ++ lines.
Proof.
  unfold print_all. revert w.
  induction lines as [|l lines IH]; intros w; cbn.
  - by rewrite app_nil_r.
  - rewrite IH. cbn. by rewrite <- app_assoc.
Qed.

(** [run_command] runs its command once, in a world that differs from
    the one it was called in by what was printed, stays in the working
    directory and reports the exit code last. *)
Lemma run_command_spec command description w :
  ∃ w0 out,
    fst (run_command subprocess_run command description w) = subprocess_run command w0
    ∧ cwd w0 = cwd w ∧ ran w0 = ran w
    ∧ ran (snd (run_command subprocess_run command description w)) = ran w ++ [command]
    ∧ cwd (snd (run_command subprocess_run command description w)) = cwd w
    ∧ printed (snd (run_command subprocess_run command description w))
      = printed w ++ out
        ++ [ ("Exit code: "
              ++ str (returncode (fst (run_command subprocess_run command description w))))
             %string ].
Proof.
  unfold RunTests.run_command. cbn [fst snd].
  set (w0 := print _ (print _ (if truthy description then _ else _))).
  set (result := subprocess_run command w0).
  exists w0.
  assert (Hw0 : cwd w0 = cwd w ∧ ran w0 = ran w
                ∧ ∃ o, printed w0 = printed w ++ o).
  { subst w0. destruct (truthy description);
      cbn [print cwd ran printed]; repeat split.
    - eexists. by rewrite <- !app_assoc.
    - eexists. by rewrite <- !app_assoc. }
  destruct Hw0 as (Hc & Hr & o & Hp).
  exists (o ++ (if truthy (stdout result)
                then [ "STDOUT:"; stdout result ] else [])
            ++ (if truthy (stderr result)
                then [ "STDERR:"; stderr result ] else [])).
  destruct (truthy (stdout result)), (truthy (stderr result));
    cbn [print cwd ran printed]; rewrite ?Hp, ?Hr, ?Hc;
    repeat split; rewrite <- ?app_assoc; reflexivity.
Qed.

(** X13. When installing the package fails, [main] returns 1 right
    away: the install command is the only command run, the last line
    printed says so, and the test suite is never started. *)
Theorem main_stops_when_install_fails (args : Args) (w : World) :
  (∀ w', returncode (subprocess_run "pip install -e .[dev]" w') ≠ 0) →
  let out := main project_dir sys_version subprocess_run args w in
  fst out = 1
  ∧ ran (snd out) = ran w ++ [ "pip install -e .[dev]" ]
  ∧ cwd (snd out) = project_dir
  ∧ last (printed (snd out)) = Some "Failed to install dependencies".
Proof.
  intros Hfail. unfold main.
  set (w1 := print _ (print _ (print _ _))).
  destruct (run_command_spec "pip install -e .[dev]"
              "Installing package in development mode" w1)
    as (w0 & o & Hres & Hcwd0 & Hran0 & Hran & Hcwd & Hprinted).
  destruct (run_command subprocess_run "pip install -e .[dev]" _ w1)
    as [install_result w2].
  cbn [fst snd] in *.
  replace (returncode install_result =? 0) with false
    by (symmetry; apply Z.eqb_neq; rewrite Hres; apply Hfail).
  cbn [negb fst snd print ran cwd printed].
  rewrite Hran, Hcwd. repeat split.
  apply last_snoc.
Qed.

(** What [run_command] prints and where it runs its command: the
    banner first, then the command, once, in the directory it was called
    in, then the captured output that is not empty and the exit code. *)
Lemma run_command_transcript command description w :
  ∃ w0,
    cwd w0 = cwd w ∧ ran w0 = ran w
    ∧ printed w0
      = printed w
        ++ [ (newline ++ rule)%string ]
        ++ (if truthy description
            then [ ("Running: " ++ description)%string ] else [])
        ++ [ ("Command: " ++ command)%string; rule ]
    ∧ fst (run_command subprocess_run command description w)
      = subprocess_run command w0
    ∧ cwd (snd (run_command subprocess_run command description w)) = cwd w
    ∧ ran (snd (run_command subprocess_run command description w))
      = ran w ++ [ command ]
    ∧ printed (snd (run_command subprocess_run command description w))
      = printed w0
        ++ (if truthy (stdout (subprocess_run command w0))
            then [ "STDOUT:"; stdout (subprocess_run command w0) ] else [])
        ++ (if truthy (stderr (subprocess_run command w0))
            then [ "STDERR:"; stderr (subprocess_run command w0) ] else [])
        ++ [ ("Exit code: "
              ++ str (returncode (subprocess_run command w0)))%string ].
Proof.
  unfold RunTests.run_command. cbn [fst snd].
  set (w0 := print _ (print _ (if truthy description then _ else _))).
  exists w0.
  assert (Hw0 : cwd w0 = cwd w ∧ ran w0 = ran w
                ∧ printed w0
                  = printed w
                    ++ [ (newline ++ rule)%string ]
                    ++ (if truthy description
                        then [ ("Running: " ++ description)%string ] else [])
                    ++ [ ("Command: " ++ command)%string; rule ]).
  { subst w0. destruct (truthy description);
      cbn [print cwd ran printed]; repeat split;
      by rewrite <- !app_assoc. }
  destruct Hw0 as (Hc & Hr & Hp).
  split; [exact Hc|]. split; [exact Hr|]. split; [exact Hp|].
  split; [reflexivity|].
  destruct (truthy (stdout (subprocess_run command w0))),
           (truthy (stderr (subprocess_run command w0)));
    cbn [print cwd ran printed]; rewrite ?Hr, ?Hc;
    repeat split; rewrite <- ?app_assoc; reflexivity.
Qed.

(** X14. When the install command, run in the project directory before
    any other command, succeeds, [main] does just that and then runs the
    pytest command, in the project directory as well, and nothing else;
    its exit code is the exit code of pytest.  What it prints is the
    three opening lines, for each of the two commands its banner, its
    captured output and its exit code, then the summary: all tests
    passed exactly when the code of pytest is 0, the coverage reports
    exactly when coverage is on and the code is 0, and the two location
    lines. *)
Theorem main_runs_the_suite (args : Args) (w : World) :
  (∀ w', cwd w' = project_dir → ran w' = ran w →
         returncode (subprocess_run "pip install -e .[dev]" w') = 0) →
  let out := main project_dir sys_version subprocess_run args w in
  ∃ w1 w2,
    let installed := subprocess_run "pip install -e .[dev]" w1 in
    let tested := subprocess_run (pytest_cmd args) w2 in
    let code := returncode tested in
    let shown (r : CompletedProcess) :=
      (if truthy (stdout r) then [ "STDOUT:"; stdout r ] else [])
      ++ (if truthy (stderr r) then [ "STDERR:"; stderr r ] else [])
      ++ [ ("Exit code: " ++ str (returncode r))%string ] in
    cwd w1 = project_dir
    ∧ ran w1 = ran w
    ∧ printed w1
      = printed w
        ++ [ ("Running tests from: " ++ project_dir)%string;
             ("Python version: " ++ sys_version)%string;
             (newline ++ "Installing dependencies...")%string;
             (newline ++ rule)%string;
             "Running: Installing package in development mode";
             "Command: pip install -e .[dev]";
             rule ]
    ∧ cwd w2 = project_dir
    ∧ ran w2 = ran w ++ [ "pip install -e .[dev]" ]
    ∧ printed w2
      = printed w1 ++ shown installed
        ++ [ (newline ++ rule)%string;
             "Running: Running test suite";
             ("Command: " ++ pytest_cmd args)%string;
             rule ]
    ∧ fst out = code
    ∧ ran (snd out) = ran w ++ [ "pip install -e .[dev]"; pytest_cmd args ]
    ∧ cwd (snd out) = project_dir
    ∧ printed (snd out)
      = printed w2 ++ shown tested
        ++ [ (newline ++ rule)%string; "TEST SUMMARY"; rule;
             if code =? 0 then "✅ All tests passed!"
             else "❌ Some tests failed!" ]
        ++ (if negb (no_coverage args) && (code =? 0)
            then [ (newline ++ "Coverage report generated:")%string;
                   "  - Terminal: (shown above)";
                   ("  - HTML: " ++ project_dir ++ "/htmlcov/index.html")
                   %string;
                   ("  - XML: " ++ project_dir ++ "/coverage.xml")%string ]
            else [])
        ++ [ (newline ++ "Test files location: " ++ project_dir ++ "/tests/")
             %string;
             ("Configuration: " ++ project_dir ++ "/pytest.ini")%string ].
Proof.
  intros Hok. unfold main.
  set (w0 := print _ (print _ (print _ _))).
  assert (Hw0 : printed w0
                = printed w
                  ++ [ ("Running tests from: " ++ project_dir)%string;
                       ("Python version: " ++ sys_version)%string;
                       (newline ++ "Installing dependencies...")%string ]
                ∧ ran w0 = ran w ∧ cwd w0 = project_dir).
  { subst w0. cbn [print printed ran cwd]. rewrite <- !app_assoc.
    by repeat split. }
  destruct Hw0 as (Hp0 & Hr0 & Hc0).
  destruct (run_command_transcript "pip install -e .[dev]"
              "Installing package in development mode" w0)
    as (w1 & Hc1 & Hr1 & Hp1 & Hres1 & Hcwdi & Hrani & Hprintedi).
  destruct (run_command subprocess_run "pip install -e .[dev]" _ w0)
    as [install_result wi].
  cbn [fst snd] in *.
  replace (returncode install_result =? 0) with true
    by (symmetry; apply Z.eqb_eq; rewrite Hres1; apply Hok; congruence).
  cbn [negb].
  destruct (run_command_transcript (pytest_cmd args) "Running test suite" wi)
    as (w2 & Hc2 & Hr2 & Hp2 & Hres2 & Hcwdt & Hrant & Hprintedt).
  destruct (run_command subprocess_run (pytest_cmd args) _ wi)
    as [test_result wt].
  cbn [fst snd] in *.
  exists w1, w2. cbn zeta. rewrite <- Hres2.
  split; [congruence|]. split; [congruence|].
  split; [by rewrite Hp1, Hp0, <- !app_assoc|].
  split; [congruence|]. split; [congruence|].
  split; [by rewrite Hp2, Hprintedi, <- !app_assoc|].
  split; [done|].
  destruct (returncode test_result =? 0), (no_coverage args);
    cbn [negb andb fst snd].
  all: repeat split.
  all: rewrite ?ran_print_all, ?cwd_print_all, ?printed_print_all,
      ?ran_print, ?cwd_print, ?ran_print_all, ?cwd_print_all.
  all: try (rewrite Hrant, Hrani, Hr0, <- app_assoc; reflexivity).
  all: try congruence.
  all: cbn [print printed]; rewrite printed_print_all, Hprintedt, Hres2.
  all: rewrite <- ?app_assoc; reflexivity.
Qed.

End Runner.

End RunTestsFacts.

(* ===================================================================== *)
(** * The further properties on the fixtures *)
(* ===================================================================== *)

Section FurtherExamples.
Import AgentSwarm Routes Fixtures Exceptions Conftest RunTests Scenarios.
#[local] Open Scope list_scope.

Lemma method_exceptions_propagate_witness :
  (∀ rq, fst (failing_client swarm_not_found (client (this fresh_heap)) rq
                (world fresh_heap)) = Raised swarm_not_found)
  ∧ fst (invoke (failing_client swarm_not_found)
           (StartSwarm "proj_error" [] "Test error handling" None)
           fresh_heap)
    = Raised swarm_not_found.
Proof.
  split; [intros; reflexivity|].
  exact (proj1 (method_exceptions_propagate (failing_client swarm_not_found)
                  (StartSwarm "proj_error" [] "Test error handling" None)
                  fresh_heap swarm_not_found (λ _, eq_refl))).
Defined.

Lemma envelopes_pass_through_witness :
  (∀ rq, fst (mock_client types_envelope (client (this fresh_heap)) rq
                (world fresh_heap)) = Returned types_envelope)
  ∧ fst (get_status (mock_client types_envelope) "swarm_123" fresh_heap)
    = Returned types_envelope.
Proof.
  split; [intros; reflexivity|].
  destruct (envelopes_pass_through (mock_client types_envelope) fresh_heap
              types_envelope (λ _, eq_refl)) as (_ & _ & Hstatus & _).
  exact (Hstatus "swarm_123").
Defined.

Lemma reset_environment_round_trip_witness :
  idle_test (snd (reset_environment_setup key_only))
  = snd (reset_environment_setup key_only)
  ∧ reset_environment idle_test key_only = key_only.
Proof.
  split; [reflexivity|].
  exact (reset_environment_round_trip idle_test key_only eq_refl).
Defined.

Lemma main_stops_when_install_fails_witness :
  (∀ w', returncode (nothing_works "pip install -e .[dev]" w') ≠ 0)
  ∧ fst (main "/sdk" "3.11" nothing_works no_options at_start) = 1
  ∧ ran (snd (main "/sdk" "3.11" nothing_works no_options at_start))
    = [ "pip install -e .[dev]" ].
Proof.
  assert (Hfail : ∀ w', returncode (nothing_works "pip install -e .[dev]" w')
                        ≠ 0) by (intros w'; discriminate).
  split; [exact Hfail|].
  destruct (main_stops_when_install_fails "/sdk" "3.11" nothing_works
              no_options at_start Hfail) as (Hcode & Hran & _).
  split; [exact Hcode | exact Hran].
Defined.

Lemma main_runs_the_suite_witness :
  (∀ w', cwd w' = "/sdk" → ran w' = ran at_start →
         returncode (all_green "pip install -e .[dev]" w') = 0)
  ∧ ran (snd (main "/sdk" "3.11" all_green fast_only at_start))
    = [ "pip install -e .[dev]"; pytest_cmd fast_only ].
Proof.
  split; [intros; reflexivity|].
  destruct (main_runs_the_suite "/sdk" "3.11" all_green fast_only at_start
              (λ _ _ _, eq_refl))
    as (w1 & w2 & _ & _ & _ & _ & _ & _ & _ & Hran & _).
  exact Hran.
Defined.

End FurtherExamples.
